(** * Diagnostic Test Generator: a shallow embedding of [main.py]

    The service is one FastAPI module.  Its own code is embedded here as
    executable definitions:

    - Python [str] values are sequences of Unicode code points;
    - the handler of [POST /generate-test] is a computation in a small
      state-and-exception monad whose state is the log of outbound calls to
      the completion API;
    - what the module imports and does not define (the JSON decoder, the
      scalar validators of pydantic, the text of library exceptions, the
      process environment and the remote completion service) is collected
      in two records, [Library] and [World], over which every general
      statement is quantified. *)

From Stdlib Require Import List String Ascii Bool Arith ZArith NArith Lia.
From Stdlib Require Import DecimalString QArith.
Import ListNotations.

Set Implicit Arguments.
Set Warnings "-register-all".
Close Scope Q_scope.
Local Open Scope list_scope.

(** ** Python strings *)

Module PyStr.

(** A [str] is a sequence of code points. *)
Definition codepoint := N.
Definition pystr := list codepoint.

(** An ASCII literal of the source, as a [str]. *)
Definition lit (s : string) : pystr :=
  map N_of_ascii (list_ascii_of_string s).

(** The double quote, which the literals below splice in. *)
Definition dquote : pystr := [34%N].

(** The line feed. *)
Definition LF : pystr := [10%N].

Fixpoint eqb (s t : pystr) : bool :=
  match s, t with
  | [], [] => true
  | a :: s', b :: t' => N.eqb a b && eqb s' t'
  | _, _ => false
  end.

(** [str.isspace] on one code point: the characters CPython's
    [_PyUnicode_IsWhitespace] accepts, which are the ones [str.strip()]
    removes. *)
Definition isspace (c : codepoint) : bool :=
  (((0x09 <=? c) && (c <=? 0x0D))
   || ((0x1C <=? c) && (c <=? 0x20))
   || (c =? 0x85) || (c =? 0xA0) || (c =? 0x1680)
   || ((0x2000 <=? c) && (c <=? 0x200A))
   || (c =? 0x2028) || (c =? 0x2029) || (c =? 0x202F)
   || (c =? 0x205F) || (c =? 0x3000))%N.

Fixpoint lstrip (s : pystr) : pystr :=
  match s with
  | [] => []
  | c :: s' => if isspace c then lstrip s' else s
  end.

Definition rstrip (s : pystr) : pystr := rev (lstrip (rev s)).

(** [s.strip()] *)
Definition strip (s : pystr) : pystr := rstrip (lstrip s).

(** [s.startswith(p)] *)
Fixpoint startswith (s p : pystr) {struct p} : bool :=
  match p, s with
  | [], _ => true
  | _ :: _, [] => false
  | a :: p', b :: s' => N.eqb a b && startswith s' p'
  end.

(** [s.endswith(p)] *)
Definition endswith (s p : pystr) : bool :=
  startswith (rev s) (rev p).

(** [s[n:]] for a literal [n >= 0] *)
Definition slice_from (n : nat) (s : pystr) : pystr := skipn n s.

(** [s[:-n]] for a literal [n > 0] *)
Definition slice_to_minus (n : nat) (s : pystr) : pystr :=
  firstn (List.length s - n) s.

(** [str(i)] for an [int] *)
Definition str_of_int (z : Z) : pystr :=
  lit (NilZero.string_of_int (Z.to_int z)).

End PyStr.
Import PyStr.

(** ** Response cleanup (main.py, lines 126-135) *)

Definition fence_json : pystr := lit "```json".
Definition fence : pystr := lit "```".

(** The handler's treatment of the completion text between the API call
    and [json.loads]:
<<
    content = response.choices[0].message.content.strip()
    if content.startswith("```json"): content = content[7:]
    if content.startswith("```"):     content = content[3:]
    if content.endswith("```"):       content = content[:-3]
    content = content.strip()
>> *)
Definition clean_content (raw : pystr) : pystr :=
  let content := strip raw in
  let content :=
    if startswith content fence_json then slice_from 7 content else content in
  let content :=
    if startswith content fence then slice_from 3 content else content in
  let content :=
    if endswith content fence then slice_to_minus 3 content else content in
  strip content.

(** The completion of testable property 4 and the text it must clean to. *)
Definition questions_empty_compact : pystr :=
  lit "{" ++ dquote ++ lit "questions" ++ dquote ++ lit ":[]}".

Definition fenced_questions_empty_compact : pystr :=
  lit "```json" ++ LF ++ questions_empty_compact ++ LF ++ lit "```".

(** The already-clean document of testable property 3. *)
Definition questions_empty : pystr :=
  lit "{" ++ dquote ++ lit "questions" ++ dquote ++ lit ": []}".

(** Three completions with one marker each. *)
Definition only_json_fence : pystr :=
  lit "```json" ++ LF ++ questions_empty.
Definition only_bare_fence : pystr :=
  lit "```" ++ LF ++ questions_empty.
Definition only_closing_fence : pystr :=
  questions_empty ++ LF ++ lit "```".

(** ** Values produced by [json.loads] *)

(** The Python values a JSON document decodes to.  A [float] is kept as
    the number literal that denotes it; a [dict] keeps its pairs in
    insertion order. *)
Inductive json : Type :=
| JNull
| JBool (b : bool)
| JInt (i : Z)
| JFloat (literal : pystr)
| JStr (s : pystr)
| JList (items : list json)
| JDict (pairs : list (pystr * json)).

(** [d.get(k)] on the pairs of a [dict]. *)
Fixpoint dict_get (k : pystr) (d : list (pystr * json)) : option json :=
  match d with
  | [] => None
  | (k', v) :: d' => if PyStr.eqb k k' then Some v else dict_get k d'
  end.

(** ** Exceptions *)

(** The exception classes that can reach the handler's [except] clauses.
    All of them derive from [Exception]; only [JSONDecodeError] is matched
    by the first clause (it derives from [ValueError], which is not).
    Every class but [HTTPException] carries the text [str(e)] evaluates
    to. *)
Inductive exn : Type :=
| HTTPException (status_code : Z) (detail : pystr)
| JSONDecodeError (msg : pystr)
| ValueError (msg : pystr)
| RecursionError (msg : pystr)
| KeyError (msg : pystr)
| TypeError (msg : pystr)
| IndexError (msg : pystr)
| AttributeError (msg : pystr)
| ValidationError (msg : pystr)
| ClientError (msg : pystr).

(** ** What the module imports *)

(** Behaviour of the imported libraries that the module relies on and
    does not define. *)
Record Library : Type := {
  (** [json.loads(s)]: the decoded value, or the exception it raises: a
      [JSONDecodeError] on a text that is not a JSON document, and also a
      [RecursionError] on nesting deeper than the interpreter allows or a
      [ValueError] on an integer literal longer than the interpreter
      converts, whether or not the text is a JSON document. *)
  json_loads : pystr -> exn + json;
  (** pydantic's validator of an [int] field, with its coercions. *)
  int_validator : json -> option Z;
  (** pydantic's validator of a [str] field, with its coercions. *)
  str_validator : json -> option pystr;
  (** [str(e)] for a Starlette [HTTPException]. *)
  str_HTTPException : Z -> pystr -> pystr;
  (** [str(e)] for the [TypeError] of [v["questions"]] on a [v] that is
      not a [dict]. *)
  str_subscript_TypeError : json -> pystr;
  (** [str(e)] for the pydantic [ValidationError] of a rejected
      [questions] argument. *)
  str_ValidationError : json -> pystr
}.

(** One entry of [messages]. *)
Record ChatMessage : Type := {
  role : pystr;
  content : pystr
}.

(** The keyword arguments of one [client.chat.completions.create] call,
    with the credential of the client that makes it. *)
Record CompletionCall : Type := {
  call_api_key : pystr;
  model : pystr;
  messages : list ChatMessage;
  temperature : Q;
  max_tokens : Z
}.

(** The part of a [ChatCompletion] the handler reads:
    [response.choices[i].message.content], which may be [None]. *)
Record ChatCompletion : Type := {
  choices : list (option pystr)
}.

(** The process environment and the remote service. *)
Record World : Type := {
  os_getenv : pystr -> option pystr;
  chat_completions_create : CompletionCall -> exn + ChatCompletion
}.

(** ** The monad of the handlers *)

(** A handler runs against the log of the outbound calls made so far and
    either returns or raises. *)
Definition M (A : Type) : Type :=
  list CompletionCall -> (exn + A) * list CompletionCall.

Definition ret {A} (a : A) : M A := fun log => (inr a, log).

Definition raise {A} (e : exn) : M A := fun log => (inl e, log).

Definition bind {A B} (m : M A) (k : A -> M B) : M B :=
  fun log =>
    match m log with
    | (inr a, log') => k a log'
    | (inl e, log') => (inl e, log')
    end.

(** [try: m  except ... as e: h e] *)
Definition try_except {A} (m : M A) (h : exn -> M A) : M A :=
  fun log =>
    match m log with
    | (inr a, log') => (inr a, log')
    | (inl e, log') => h e log'
    end.

(** Lifting of a computation that raises but touches no state. *)
Definition lift {A} (r : exn + A) : M A := fun log => (r, log).

Declare Scope py_scope.
Delimit Scope py_scope with py.
Notation "x <- m ;; k" := (bind m (fun x => k))
  (at level 61, m at next level, right associativity) : py_scope.
Local Open Scope py_scope.

(** The same sequencing for validators, which fail without a value. *)
Definition obind {A B} (o : option A) (k : A -> option B) : option B :=
  match o with
  | Some a => k a
  | None => None
  end.

Notation "x <-? o ;; k" := (obind o (fun x => k))
  (at level 61, o at next level, right associativity) : py_scope.

(** ** Request and response models (main.py, lines 23-46) *)

Record DiagnosticTestRequest : Type := {
  req_course_name : pystr;
  req_subject : pystr;
  req_target_grade_level : pystr;
  number_of_mcq : Z
}.

(** The field [option] is written [option_] here. *)
Record MCQOption : Type := {
  option_ : pystr;
  text : pystr
}.

Record MCQQuestion : Type := {
  question_number : Z;
  question : pystr;
  options : list MCQOption;
  correct_answer : pystr;
  explanation : pystr
}.

Record DiagnosticTestResponse : Type := {
  course_name : pystr;
  subject : pystr;
  target_grade_level : pystr;
  total_questions : Z;
  questions : list MCQQuestion
}.

(** [all_or_none f l] validates every element of [l], in order. *)
Fixpoint all_or_none {A B} (f : A -> option B) (l : list A) : option (list B) :=
  match l with
  | [] => Some []
  | a :: l' =>
      b <-? f a ;;
      bs <-? all_or_none f l' ;;
      Some (b :: bs)
  end.

Section Models.

Variable L : Library.

(** A required field of declared type [int] or [str]: the key must be
    present and its value must pass the validator of the type. *)
Definition int_field (name : string) (d : list (pystr * json)) : option Z :=
  v <-? dict_get (lit name) d ;; int_validator L v.

Definition str_field (name : string) (d : list (pystr * json)) : option pystr :=
  v <-? dict_get (lit name) d ;; str_validator L v.

(** A required field of declared type [List[T]]: the value must be a
    [list] whose elements all validate as [T].  No length is declared. *)
Definition list_field {T} (validate : json -> option T)
    (name : string) (d : list (pystr * json)) : option (list T) :=
  v <-? dict_get (lit name) d ;;
  match v with
  | JList items => all_or_none validate items
  | _ => None
  end.

(** [MCQOption]: two [str] fields. *)
Definition validate_MCQOption (v : json) : option MCQOption :=
  match v with
  | JDict d =>
      o <-? str_field "option" d ;;
      t <-? str_field "text" d ;;
      Some {| option_ := o; text := t |}
  | _ => None
  end.

(** [MCQQuestion]: the five fields of lines 35-39, with nothing declared
    beyond their types. *)
Definition validate_MCQQuestion (v : json) : option MCQQuestion :=
  match v with
  | JDict d =>
      n <-? int_field "question_number" d ;;
      q <-? str_field "question" d ;;
      os <-? list_field validate_MCQOption "options" d ;;
      c <-? str_field "correct_answer" d ;;
      e <-? str_field "explanation" d ;;
      Some {| question_number := n; question := q; options := os;
              correct_answer := c; explanation := e |}
  | _ => None
  end.

(** [List[MCQQuestion]], the declared type of [questions]. *)
Definition validate_questions (v : json) : option (list MCQQuestion) :=
  match v with
  | JList items => all_or_none validate_MCQQuestion items
  | _ => None
  end.

(** [Field(..., ge=1, le=50)] *)
Definition ge_le (lo hi : Z) (i : Z) : option Z :=
  if (lo <=? i)%Z && (i <=? hi)%Z then Some i else None.

(** [DiagnosticTestRequest], validated from the decoded request body. *)
Definition validate_DiagnosticTestRequest (body : json)
  : option DiagnosticTestRequest :=
  match body with
  | JDict d =>
      c <-? str_field "course_name" d ;;
      s <-? str_field "subject" d ;;
      g <-? str_field "target_grade_level" d ;;
      n <-? (i <-? int_field "number_of_mcq" d ;; ge_le 1 50 i) ;;
      Some {| req_course_name := c; req_subject := s;
              req_target_grade_level := g; number_of_mcq := n |}
  | _ => None
  end.

(** The constructor call of lines 141-147.  The four scalar arguments
    come from the validated request and have their declared types; the
    [questions] argument is whatever the model output decoded to. *)
Definition new_DiagnosticTestResponse
    (course_name subject target_grade_level : pystr)
    (total_questions : Z) (questions : json)
  : exn + DiagnosticTestResponse :=
  match validate_questions questions with
  | Some qs =>
      inr {| course_name := course_name; subject := subject;
             target_grade_level := target_grade_level;
             total_questions := total_questions; questions := qs |}
  | None => inl (ValidationError (str_ValidationError L questions))
  end.

(** [str(e)] *)
Definition str_exn (e : exn) : pystr :=
  match e with
  | HTTPException status_code detail => str_HTTPException L status_code detail
  | JSONDecodeError msg | ValueError msg | RecursionError msg
  | KeyError msg | TypeError msg | IndexError msg
  | AttributeError msg | ValidationError msg | ClientError msg => msg
  end.

(** [v["questions"]] *)
Definition getitem_questions (v : json) : exn + json :=
  match v with
  | JDict d =>
      match dict_get (lit "questions") d with
      | Some q => inr q
      | None => inl (KeyError (lit "'questions'"))
      end
  | _ => inl (TypeError (str_subscript_TypeError L v))
  end.

End Models.

(** ** Rendering a response *)

(** A surrogate code point, which UTF-8 does not encode. *)
Definition is_surrogate (c : codepoint) : bool :=
  ((0xD800 <=? c) && (c <=? 0xDFFF))%N.

(** [s.encode("utf-8")] does not raise. *)
Definition encodable (s : pystr) : bool :=
  forallb (fun c => negb (is_surrogate c)) s.

Definition option_encodable (o : MCQOption) : bool :=
  encodable (option_ o) && encodable (text o).

Definition question_encodable (q : MCQQuestion) : bool :=
  encodable (question q)
  && forallb option_encodable (options q)
  && encodable (correct_answer q)
  && encodable (explanation q).

(** The response body can be sent: every string of the test encodes. *)
Definition response_encodable (t : DiagnosticTestResponse) : bool :=
  encodable (course_name t)
  && encodable (subject t)
  && encodable (target_grade_level t)
  && forallb question_encodable (questions t).

(** ** The prompt (main.py, lines 78-112) *)

(** A literal of the source that contains double quotes, written with an
    apostrophe in the place of each; the source's prompt has no apostrophe
    of its own. *)
Definition litq (s : string) : pystr :=
  map (fun c => if N.eqb c 39 then 34%N else c) (lit s).

(** The f-string, line by line; [{{] and [}}] of the source are the
    braces they denote. *)
Definition build_prompt (request : DiagnosticTestRequest) : pystr :=
  let n := str_of_int (number_of_mcq request) in
  List.concat (map (fun line => line ++ LF)
    [ [];
      lit "You are an expert educational assessment creator. Create a diagnostic test with the following specifications:";
      [];
      lit "Course Name: " ++ req_course_name request;
      lit "Subject: " ++ req_subject request;
      lit "Target Grade/Level: " ++ req_target_grade_level request;
      lit "Number of MCQ Questions: " ++ n;
      [];
      lit "Generate " ++ n ++ lit " multiple-choice questions that assess prerequisite knowledge for this course. ";
      lit "Each question should:";
      lit "1. Test fundamental concepts relevant to the course";
      lit "2. Have 4 options (A, B, C, D)";
      lit "3. Have only one correct answer";
      lit "4. Include a brief explanation of the correct answer";
      [];
      lit "Return the response in the following JSON format:";
      lit "{";
      litq "  'questions': [";
      lit "    {";
      litq "      'question_number': 1,";
      litq "      'question': 'Question text here',";
      litq "      'options': [";
      litq "        {'option': 'A', 'text': 'Option A text'},";
      litq "        {'option': 'B', 'text': 'Option B text'},";
      litq "        {'option': 'C', 'text': 'Option C text'},";
      litq "        {'option': 'D', 'text': 'Option D text'}";
      lit "      ],";
      litq "      'correct_answer': 'A',";
      litq "      'explanation': 'Explanation of why this is correct'";
      lit "    }";
      lit "  ]";
      lit "}";
      [];
      lit "Ensure the JSON is valid and properly formatted." ]).

Definition system_message : pystr :=
  lit "You are an expert educational assessment creator. Always respond with valid JSON only.".

(** ** The handlers *)

(** [bool(s)] for a [str] or [None]. *)
Definition bool_of_str (s : Datatypes.option pystr) : bool :=
  match s with
  | None => false
  | Some [] => false
  | Some (_ :: _) => true
  end.

(** The client object: it holds the credential it was built with. *)
Record OpenAI : Type := { api_key : pystr }.

Section Service.

Variable L : Library.
Variable W : World.

(** Lines 16-20. *)
Definition get_openai_client : M OpenAI :=
  let api_key := os_getenv W (lit "OPENAI_API_KEY") in
  match api_key with
  | Some key =>
      if negb (bool_of_str api_key)
      then raise (HTTPException 500 (lit "OpenAI API key not configured"))
      else ret {| api_key := key |}
  | None => raise (HTTPException 500 (lit "OpenAI API key not configured"))
  end.

(** [client.chat.completions.create(...)]: the one outbound call.  It is
    logged whether the remote end answers or fails. *)
Definition create (call : CompletionCall) : M ChatCompletion :=
  fun log => (chat_completions_create W call, log ++ [call]).

(** [response.choices[0]] *)
Definition first_choice (response : ChatCompletion)
  : exn + Datatypes.option pystr :=
  match choices response with
  | c :: _ => inr c
  | [] => inl (IndexError (lit "list index out of range"))
  end.

(** The receiver of [.strip()] on line 126: a [str], or [None]. *)
Definition message_content (c : Datatypes.option pystr) : exn + pystr :=
  match c with
  | Some s => inr s
  | None =>
      inl (AttributeError (lit "'NoneType' object has no attribute 'strip'"))
  end.

(** [json.loads(content)], with whatever it raises. *)
Definition loads (content : pystr) : exn + json :=
  json_loads L content.

(** The arguments of the call on lines 115-123. *)
Definition completion_call (client : OpenAI) (prompt : pystr)
  : CompletionCall :=
  {| call_api_key := api_key client;
     model := lit "gpt-4o-mini";
     messages :=
       [ {| role := lit "system"; content := system_message |};
         {| role := lit "user"; content := prompt |} ];
     temperature := (7 # 10)%Q;
     max_tokens := 4000 |}.

(** The body of the [try] statement, lines 74-149. *)
Definition generate_body (request : DiagnosticTestRequest)
  : M DiagnosticTestResponse :=
  client <- get_openai_client ;;
  let prompt := build_prompt request in
  response <- create (completion_call client prompt) ;;
  choice <- lift (first_choice response) ;;
  raw <- lift (message_content choice) ;;
  let content := clean_content raw in
  test_data <- lift (loads content) ;;
  questions <- lift (getitem_questions L test_data) ;;
  diagnostic_test <- lift
    (new_DiagnosticTestResponse L
       (req_course_name request) (req_subject request)
       (req_target_grade_level request) (number_of_mcq request)
       questions) ;;
  ret diagnostic_test.

(** The two [except] clauses, lines 151-154, tried in order. *)
Definition handle (e : exn) : M DiagnosticTestResponse :=
  match e with
  | JSONDecodeError _ =>
      raise (HTTPException 500
               (lit "Failed to parse GPT response: " ++ str_exn L e))
  | _ =>
      raise (HTTPException 500
               (lit "Error generating test: " ++ str_exn L e))
  end.

(** [generate_diagnostic_test], lines 69-154. *)
Definition generate_diagnostic_test (request : DiagnosticTestRequest)
  : M DiagnosticTestResponse :=
  try_except (generate_body request) handle.

(** The body of [GET /health]. *)
Record Health : Type := {
  status : pystr;
  openai_configured : bool
}.

(** [health_check], lines 60-66. *)
Definition health_check : M Health :=
  let api_key := os_getenv W (lit "OPENAI_API_KEY") in
  ret {| status := lit "healthy"; openai_configured := bool_of_str api_key |}.

(** ** The HTTP boundary *)

(** What the framework sends back. *)
Inductive body : Type :=
| TestBody (test : DiagnosticTestResponse)
| DetailBody (detail : pystr)
| ValidationBody (rejected : json)
| PlainBody (text : pystr).

Record Response : Type := {
  http_status : Z;
  http_body : body
}.

(** [POST /generate-test]: the framework validates the decoded body
    against [DiagnosticTestRequest] and answers 422 without entering the
    handler when that fails; an [HTTPException] the handler raises
    becomes a response with its status and detail; a test the handler
    returns is rendered as JSON and encoded, after the [try] statement
    has been left, and what fails there is answered by the framework's
    own plain 500. *)
Definition post_generate_test (request_body : json) : M Response :=
  match validate_DiagnosticTestRequest L request_body with
  | None =>
      ret {| http_status := 422; http_body := ValidationBody request_body |}
  | Some request =>
      fun log =>
        match generate_diagnostic_test request log with
        | (inr test, log') =>
            if response_encodable test
            then (inr {| http_status := 200; http_body := TestBody test |},
                  log')
            else (inr {| http_status := 500;
                         http_body :=
                           PlainBody (lit "Internal Server Error") |},
                  log')
        | (inl (HTTPException status_code detail), log') =>
            (inr {| http_status := status_code;
                    http_body := DetailBody detail |}, log')
        | (inl _, log') =>
            (inr {| http_status := 500;
                    http_body := PlainBody (lit "Internal Server Error") |},
             log')
        end
  end.

End Service.

(** ** A reference decoder

    An executable decoder in the manner of CPython's [json.decoder], used
    to instantiate [json_loads] when the service is run on concrete
    completions.  It reads RFC 8259 documents together with the three
    constants [NaN], [Infinity] and [-Infinity]; error positions are
    reported as [JSONDecodeError] prints them, and an integer literal of
    more than 4300 digits raises the [ValueError] of [int].  The depth of
    nesting is not bounded here; the interpreter bounds it by a
    [RecursionError]. *)

Module JsonDecoder.

Local Open Scope N_scope.

(** The outcome of a scanner: a value with the unread text and its
    index, or the message of a [JSONDecodeError] with the index it refers
    to, or another exception. *)
Inductive scan (A : Type) : Type :=
| Scanned (a : A) (rest : pystr) (pos : nat)
| Failed (msg : pystr) (pos : nat)
| Raised (e : exn).
Arguments Failed {A} msg pos.
Arguments Raised {A} e.

(** [sys.int_info.default_max_str_digits] *)
Definition max_str_digits : nat := 4300.

(** The [ValueError] of [int(s)] for a decimal [s] of [n] digits, more
    than that. *)
Definition int_too_long (n : nat) : exn :=
  ValueError
    (lit "Exceeds the limit (4300 digits) for integer string conversion: value has "
     ++ lit (NilZero.string_of_uint (Nat.to_uint n))
     ++ lit " digits; use sys.set_int_max_str_digits() to increase the limit").

Definition is_ws (c : codepoint) : bool :=
  (c =? 32) || (c =? 9) || (c =? 10) || (c =? 13).

Fixpoint skip_ws (s : pystr) (pos : nat) : pystr * nat :=
  match s with
  | c :: s' => if is_ws c then skip_ws s' (S pos) else (s, pos)
  | [] => ([], pos)
  end.

Definition is_digit (c : codepoint) : bool := (48 <=? c) && (c <=? 57).

(** The longest run of digits at the head, and what follows it. *)
Fixpoint span_digits (s : pystr) : pystr * pystr :=
  match s with
  | c :: s' =>
      if is_digit c
      then let (ds, r) := span_digits s' in (c :: ds, r)
      else ([], s)
  | [] => ([], [])
  end.

Definition digits_value (ds : pystr) : Z :=
  fold_left (fun acc d => (10 * acc + Z.of_N (d - 48))%Z) ds 0%Z.

Definition hex_value (c : codepoint) : Datatypes.option N :=
  if is_digit c then Some (c - 48)
  else if (97 <=? c) && (c <=? 102) then Some (c - 87)
  else if (65 <=? c) && (c <=? 70) then Some (c - 55)
  else None.

Definition hex4 (a b c d : codepoint) : Datatypes.option N :=
  match hex_value a, hex_value b, hex_value c, hex_value d with
  | Some x, Some y, Some z, Some w => Some (((x * 16 + y) * 16 + z) * 16 + w)
  | _, _, _, _ => None
  end.

(** The one-letter escapes. *)
Definition simple_escape (c : codepoint) : Datatypes.option codepoint :=
  if c =? 34 then Some 34
  else if c =? 92 then Some 92
  else if c =? 47 then Some 47
  else if c =? 98 then Some 8
  else if c =? 102 then Some 12
  else if c =? 110 then Some 10
  else if c =? 114 then Some 13
  else if c =? 116 then Some 9
  else None.

(** A number literal: an optional minus sign, then a zero or a digit
    run that does not start with zero, then an optional fraction (a dot
    and at least one digit), then an optional exponent (e or E, an
    optional sign, at least one digit).  Returns the value, the unread
    text and the length of the literal; a literal with neither fraction
    nor exponent is an [int]. *)
Definition match_number (s : pystr)
  : Datatypes.option ((exn + json) * pystr * nat) :=
  let '(sign, s1) :=
    match s with
    | c :: t => if c =? 45 then ([c], t) else ([], s)
    | [] => ([], s)
    end in
  match s1 with
  | d :: t =>
      if is_digit d then
        let '(int_part, s2) :=
          if d =? 48 then ([d], t)
          else let (ds, r) := span_digits t in (d :: ds, r) in
        let '(frac, s3) :=
          match s2 with
          | c :: u =>
              if c =? 46 then
                match span_digits u with
                | ([], _) => ([], s2)
                | (ds, r) => (c :: ds, r)
                end
              else ([], s2)
          | [] => ([], s2)
          end in
        let '(exp, s4) :=
          match s3 with
          | e :: u =>
              if (e =? 101) || (e =? 69) then
                let '(sg, v) :=
                  match u with
                  | c :: w => if (c =? 43) || (c =? 45) then ([c], w) else ([], u)
                  | [] => ([], u)
                  end in
                match span_digits v with
                | ([], _) => ([], s3)
                | (ds, r) => (e :: sg ++ ds, r)
                end
              else ([], s3)
          | [] => ([], s3)
          end in
        let literal := sign ++ int_part ++ frac ++ exp in
        let value :=
          match frac, exp with
          | [], [] =>
              if (max_str_digits <? List.length int_part)%nat
              then inl (int_too_long (List.length int_part))
              else
                inr (JInt (match sign with
                           | [] => digits_value int_part
                           | _ => - digits_value int_part
                           end)%Z)
          | _, _ => inr (JFloat literal)
          end in
        Some (value, s4, List.length literal)
      else None
  | [] => None
  end.

(** The body of a string, from just after its opening quote, which is
    at index [start]. *)
Fixpoint scanstring (s : pystr) (pos start : nat) (acc : pystr)
  : scan pystr :=
  match s with
  | [] => Failed (lit "Unterminated string starting at") start
  | c :: s' =>
      if c =? 34 then Scanned (rev acc) s' (S pos)
      else if c =? 92 then
        match s' with
        | [] => Failed (lit "Unterminated string starting at") start
        | e :: s'' =>
            if e =? 117 then
              match s'' with
              | h1 :: h2 :: h3 :: h4 :: s3 =>
                  match hex4 h1 h2 h3 h4 with
                  | None => Failed (lit "Invalid \uXXXX escape") (S pos)
                  | Some u =>
                      let single := scanstring s3 (6 + pos) start (u :: acc) in
                      if (0xD800 <=? u) && (u <=? 0xDBFF) then
                        match s3 with
                        | b :: v :: k1 :: k2 :: k3 :: k4 :: s4 =>
                            if (b =? 92) && (v =? 117) then
                              match hex4 k1 k2 k3 k4 with
                              | None =>
                                  Failed (lit "Invalid \uXXXX escape") (7 + pos)
                              | Some u2 =>
                                  if (0xDC00 <=? u2) && (u2 <=? 0xDFFF) then
                                    scanstring s4 (12 + pos) start
                                      (0x10000 + (u - 0xD800) * 1024
                                       + (u2 - 0xDC00) :: acc)
                                  else single
                              end
                            else single
                        | _ => single
                        end
                      else single
                  end
              | _ => Failed (lit "Invalid \uXXXX escape") (S pos)
              end
            else
              match simple_escape e with
              | Some ch => scanstring s'' (2 + pos) start (ch :: acc)
              | None => Failed (lit "Invalid \escape: " ++ [39; e; 39]) pos
              end
        end
      else if c <? 32 then Failed (lit "Invalid control character at") pos
      else scanstring s' (S pos) start (c :: acc)
  end.

(** [dict(pairs)], one pair at a time: a repeated key keeps its place
    and takes the later value. *)
Fixpoint dict_set (k : pystr) (v : json) (d : list (pystr * json))
  : list (pystr * json) :=
  match d with
  | [] => [(k, v)]
  | (k', v') :: d' =>
      if PyStr.eqb k k' then (k', v) :: d' else (k', v') :: dict_set k v d'
  end.

(** A constant spelled [name] at the head of [s]. *)
Definition constant (name : string) (v : json) (s : pystr) (pos : nat)
  : Datatypes.option (scan json) :=
  if startswith s (lit name)
  then Some (Scanned v (skipn (String.length name) s)
               (String.length name + pos))
  else None.

Definition expecting_value : pystr := lit "Expecting value".
Definition expecting_name : pystr :=
  lit "Expecting property name enclosed in double quotes".
Definition expecting_comma : pystr := lit "Expecting ',' delimiter".
Definition expecting_colon : pystr := lit "Expecting ':' delimiter".

(** What is neither a string, an object nor an array. *)
Definition scan_atom (s : pystr) (pos : nat) : scan json :=
  match constant "null" JNull s pos,
        constant "true" (JBool true) s pos,
        constant "false" (JBool false) s pos with
  | Some r, _, _ | None, Some r, _ | None, None, Some r => r
  | None, None, None =>
      match match_number s with
      | Some (inr v, r, n) => Scanned v r (n + pos)
    | Some (inl e, _, _) => Raised e
      | None =>
          match constant "NaN" (JFloat (lit "NaN")) s pos,
                constant "Infinity" (JFloat (lit "Infinity")) s pos,
                constant "-Infinity" (JFloat (lit "-Infinity")) s pos with
          | Some r, _, _ | None, Some r, _ | None, None, Some r => r
          | None, None, None => Failed expecting_value pos
          end
      end
  end.

(** One value at index [pos]; the elements of an array after its
    bracket; the members of an object from just after the opening quote
    of a key.  [fuel] bounds the number of nested calls. *)
Fixpoint scan_once (fuel : nat) (s : pystr) (pos : nat) {struct fuel}
  : scan json :=
  match fuel with
  | O => Failed expecting_value pos
  | S fuel =>
      match s with
      | [] => Failed expecting_value pos
      | c :: s' =>
          if c =? 34 then
            match scanstring s' (S pos) pos [] with
            | Scanned v r p => Scanned (JStr v) r p
            | Failed m p => Failed m p
            | Raised e => Raised e
            end
          else if c =? 123 then
            let (s1, p1) := skip_ws s' (S pos) in
            match s1 with
            | k :: r =>
                if k =? 125 then Scanned (JDict []) r (S p1)
                else if k =? 34 then object_items fuel [] r (S p1)
                else Failed expecting_name p1
            | [] => Failed expecting_name p1
            end
          else if c =? 91 then
            let (s1, p1) := skip_ws s' (S pos) in
            match s1 with
            | k :: r =>
                if k =? 93 then Scanned (JList []) r (S p1)
                else array_items fuel [] s1 p1
            | [] => array_items fuel [] s1 p1
            end
          else scan_atom s pos
      end
  end

with array_items (fuel : nat) (acc : list json) (s : pystr) (pos : nat)
    {struct fuel} : scan json :=
  match fuel with
  | O => Failed expecting_value pos
  | S fuel =>
      match scan_once fuel s pos with
      | Failed m p => Failed m p
      | Raised e => Raised e
      | Scanned v r p =>
          let (r1, p1) := skip_ws r p in
          match r1 with
          | k :: r2 =>
              if k =? 93 then Scanned (JList (rev (v :: acc))) r2 (S p1)
              else if k =? 44 then
                let (r3, p3) := skip_ws r2 (S p1) in
                array_items fuel (v :: acc) r3 p3
              else Failed expecting_comma p1
          | [] => Failed expecting_comma p1
          end
      end
  end

with object_items (fuel : nat) (acc : list (pystr * json)) (s : pystr)
    (pos : nat) {struct fuel} : scan json :=
  match fuel with
  | O => Failed expecting_value pos
  | S fuel =>
      match scanstring s pos (pos - 1) [] with
      | Failed m p => Failed m p
      | Raised e => Raised e
      | Scanned key r p =>
          let (r1, p1) := skip_ws r p in
          match r1 with
          | k :: r2 =>
              if k =? 58 then
                let (r3, p3) := skip_ws r2 (S p1) in
                match scan_once fuel r3 p3 with
                | Failed m q => Failed m q
                | Raised e => Raised e
                | Scanned v r4 p4 =>
                    let acc' := dict_set key v acc in
                    let (r5, p5) := skip_ws r4 p4 in
                    match r5 with
                    | k' :: r6 =>
                        if k' =? 125 then Scanned (JDict acc') r6 (S p5)
                        else if k' =? 44 then
                          let (r7, p7) := skip_ws r6 (S p5) in
                          match r7 with
                          | q :: r8 =>
                              if q =? 34
                              then object_items fuel acc' r8 (S p7)
                              else Failed expecting_name p7
                          | [] => Failed expecting_name p7
                          end
                        else Failed expecting_comma p5
                    | [] => Failed expecting_comma p5
                    end
                end
              else Failed expecting_colon p1
          | [] => Failed expecting_colon p1
          end
      end
  end.

Definition str_of_nat (n : nat) : pystr :=
  lit (NilZero.string_of_uint (Nat.to_uint n)).

(** The text after the last line feed of [s], or all of [s]. *)
Definition last_line (s : pystr) : pystr :=
  fold_left (fun line c => if c =? 10 then [] else line ++ [c]) s [].

(** [str(JSONDecodeError(msg, doc, pos))] *)
Definition str_JSONDecodeError (msg doc : pystr) (pos : nat) : pystr :=
  let before := firstn pos doc in
  let lineno := S (List.length (filter (fun c => c =? 10) before)) in
  let colno := S (List.length (last_line before)) in
  msg ++ lit ": line " ++ str_of_nat lineno
      ++ lit " column " ++ str_of_nat colno
      ++ lit " (char " ++ str_of_nat pos ++ lit ")".

(** [json.loads(doc)] for a [str]. *)
Definition loads (doc : pystr) : exn + json :=
  let (s0, p0) := skip_ws doc 0 in
  match scan_once (2 * List.length doc + 2) s0 p0 with
  | Failed m p => inl (JSONDecodeError (str_JSONDecodeError m doc p))
  | Raised e => inl e
  | Scanned v r p =>
      let (r1, p1) := skip_ws r p in
      match r1 with
      | [] => inr v
      | _ :: _ =>
          inl (JSONDecodeError
                 (str_JSONDecodeError (lit "Extra data") doc p1))
      end
  end.

End JsonDecoder.

(** ** A reference instance of the imports, and stubbed worlds *)

Module Reference.

(** The texts of [TypeError] for a subscript with a [str] key, as
    CPython words them. *)
Definition subscript_TypeError (v : json) : pystr :=
  match v with
  | JNull => lit "'NoneType' object is not subscriptable"
  | JBool _ => lit "'bool' object is not subscriptable"
  | JInt _ => lit "'int' object is not subscriptable"
  | JFloat _ => lit "'float' object is not subscriptable"
  | JStr _ => lit "string indices must be integers, not 'str'"
  | JList _ => lit "list indices must be integers or slices, not str"
  | JDict _ => []
  end.

(** The imports with the validators at their narrowest: an [int] field
    takes an [int] and a [str] field takes a [str], which no version of
    pydantic refuses.  What the validators additionally coerce is left
    out, so this instance is only run on values of the exact types. *)
Definition library : Library :=
  {| json_loads := JsonDecoder.loads;
     int_validator := fun v => match v with JInt i => Some i | _ => None end;
     str_validator := fun v => match v with JStr s => Some s | _ => None end;
     str_HTTPException := fun status_code detail =>
       str_of_int status_code ++ lit ": " ++ detail;
     str_subscript_TypeError := subscript_TypeError;
     str_ValidationError := fun _ =>
       lit "1 validation error for DiagnosticTestResponse" |}.

(** An environment that holds at most the credential. *)
Definition environ (key : Datatypes.option pystr) (name : pystr)
  : Datatypes.option pystr :=
  if PyStr.eqb name (lit "OPENAI_API_KEY") then key else None.

(** A completion service that answers every call with one choice whose
    content is [completion]. *)
Definition stub_world (key : Datatypes.option pystr) (completion : pystr)
  : World :=
  {| os_getenv := environ key;
     chat_completions_create := fun _ =>
       inr {| choices := [Some completion] |} |}.

(** A completion service that fails every call with [e]. *)
Definition failing_world (key : Datatypes.option pystr) (e : exn) : World :=
  {| os_getenv := environ key;
     chat_completions_create := fun _ => inl e |}.

Definition sk_test : pystr := lit "sk-test".

(** The request body of the end-to-end scenario, with [n] questions
    asked for. *)
Definition statistics_body (n : Z) : json :=
  JDict [ (lit "course_name", JStr (lit "Intro to Statistics"));
          (lit "subject", JStr (lit "Statistics"));
          (lit "target_grade_level", JStr (lit "undergraduate"));
          (lit "number_of_mcq", JInt n) ].

Definition statistics_request (n : Z) : DiagnosticTestRequest :=
  {| req_course_name := lit "Intro to Statistics";
     req_subject := lit "Statistics";
     req_target_grade_level := lit "undergraduate";
     number_of_mcq := n |}.

(** The call the handler makes for that request. *)
Definition statistics_call (n : Z) : CompletionCall :=
  completion_call {| api_key := sk_test |}
    (build_prompt (statistics_request n)).

End Reference.

(** ** Names for the stages of the handler *)

(** The name of the credential variable. *)
Definition OPENAI_API_KEY : pystr := lit "OPENAI_API_KEY".

(** The fixed detail of the credential failure. *)
Definition not_configured : pystr := lit "OpenAI API key not configured".

(** The prefixes of the two [except] clauses. *)
Definition parse_prefix : pystr := lit "Failed to parse GPT response: ".
Definition generic_prefix : pystr := lit "Error generating test: ".

(** What the [try] body computes from the answer of the service, lines
    126-147, as one expression. *)
Definition interpret (L : Library) (request : DiagnosticTestRequest)
    (response : ChatCompletion) : exn + DiagnosticTestResponse :=
  match first_choice response with
  | inl e => inl e
  | inr choice =>
      match message_content choice with
      | inl e => inl e
      | inr raw =>
          match loads L (clean_content raw) with
          | inl e => inl e
          | inr test_data =>
              match getitem_questions L test_data with
              | inl e => inl e
              | inr questions =>
                  new_DiagnosticTestResponse L
                    (req_course_name request) (req_subject request)
                    (req_target_grade_level request) (number_of_mcq request)
                    questions
              end
          end
      end
  end.

(** ** Shapes the models refuse, and what they keep *)

Definition option_fields : list string := ["option"; "text"]%string.

Definition question_fields : list string :=
  ["question_number"; "question"; "options"; "correct_answer";
   "explanation"]%string.

Definition question_str_fields : list string :=
  ["question"; "correct_answer"; "explanation"]%string.

(** A value that is not an [MCQOption]: not an object, or an object that
    lacks a field or holds in it a value the [str] validator refuses. *)
Inductive malformed_option (L : Library) : json -> Prop :=
| option_not_dict (v : json) :
    (forall d, v <> JDict d) -> malformed_option L v
| option_field_missing (d : list (pystr * json)) (name : string) :
    In name option_fields -> dict_get (lit name) d = None ->
    malformed_option L (JDict d)
| option_field_wrong_type (d : list (pystr * json)) (name : string)
    (v : json) :
    In name option_fields -> dict_get (lit name) d = Some v ->
    str_validator L v = None ->
    malformed_option L (JDict d).

(** A value that is not an [MCQQuestion]: a missing field, a field of the
    wrong type, or a malformed option.  The number of options is not part
    of it. *)
Inductive malformed_question (L : Library) : json -> Prop :=
| question_not_dict (v : json) :
    (forall d, v <> JDict d) -> malformed_question L v
| question_field_missing (d : list (pystr * json)) (name : string) :
    In name question_fields -> dict_get (lit name) d = None ->
    malformed_question L (JDict d)
| question_number_wrong_type (d : list (pystr * json)) (v : json) :
    dict_get (lit "question_number") d = Some v ->
    int_validator L v = None ->
    malformed_question L (JDict d)
| question_str_wrong_type (d : list (pystr * json)) (name : string)
    (v : json) :
    In name question_str_fields -> dict_get (lit name) d = Some v ->
    str_validator L v = None ->
    malformed_question L (JDict d)
| question_options_not_list (d : list (pystr * json)) (v : json) :
    dict_get (lit "options") d = Some v -> (forall l, v <> JList l) ->
    malformed_question L (JDict d)
| question_option_malformed (d : list (pystr * json)) (os : list json)
    (o : json) :
    dict_get (lit "options") d = Some (JList os) -> In o os ->
    malformed_option L o ->
    malformed_question L (JDict d).

(** [o] is the model's option [v], field by field. *)
Definition option_of (L : Library) (o : MCQOption) (v : json) : Prop :=
  exists d a b,
    v = JDict d
    /\ dict_get (lit "option") d = Some a
    /\ str_validator L a = Some (option_ o)
    /\ dict_get (lit "text") d = Some b
    /\ str_validator L b = Some (text o).

(** [q] is the model's question [v], field by field: its number, its
    text, its options one for one and in the same order, its answer and
    its explanation. *)
Definition question_of (L : Library) (q : MCQQuestion) (v : json) : Prop :=
  exists d n t os c e,
    v = JDict d
    /\ dict_get (lit "question_number") d = Some n
    /\ int_validator L n = Some (question_number q)
    /\ dict_get (lit "question") d = Some t
    /\ str_validator L t = Some (question q)
    /\ dict_get (lit "options") d = Some (JList os)
    /\ Forall2 (option_of L) (options q) os
    /\ dict_get (lit "correct_answer") d = Some c
    /\ str_validator L c = Some (correct_answer q)
    /\ dict_get (lit "explanation") d = Some e
    /\ str_validator L e = Some (explanation q).

(** ** Completions and the tests they assemble to *)

Module Fixtures.

Import Reference.

(** The refusal of testable property 5. *)
Definition refusal : pystr := lit "Sorry, I can't help with that.".

(** The message [json.loads] raises on it. *)
Definition refusal_message : pystr :=
  lit "Expecting value: line 1 column 1 (char 0)".

(** One question with three options. *)
Definition completion_three_options : pystr :=
  litq "{'questions': [{'question_number': 1, 'question': 'What is the mean of 2 and 4?', 'options': [{'option': 'A', 'text': '3'}, {'option': 'B', 'text': '4'}, {'option': 'C', 'text': '6'}], 'correct_answer': 'A', 'explanation': 'Half of the sum.'}]}".

Definition three_options_json : json :=
  JDict [ (lit "question_number", JInt 1);
          (lit "question", JStr (lit "What is the mean of 2 and 4?"));
          (lit "options",
           JList [ JDict [(lit "option", JStr (lit "A")); (lit "text", JStr (lit "3"))];
                   JDict [(lit "option", JStr (lit "B")); (lit "text", JStr (lit "4"))];
                   JDict [(lit "option", JStr (lit "C")); (lit "text", JStr (lit "6"))] ]);
          (lit "correct_answer", JStr (lit "A"));
          (lit "explanation", JStr (lit "Half of the sum.")) ].

Definition three_options_test : DiagnosticTestResponse :=
  {| course_name := lit "Intro to Statistics";
     subject := lit "Statistics";
     target_grade_level := lit "undergraduate";
     total_questions := 1;
     questions :=
       [ {| question_number := 1;
            question := lit "What is the mean of 2 and 4?";
            options := [ {| option_ := lit "A"; text := lit "3" |};
                         {| option_ := lit "B"; text := lit "4" |};
                         {| option_ := lit "C"; text := lit "6" |} ];
            correct_answer := lit "A";
            explanation := lit "Half of the sum." |} ] |}.

(** One question with the letter A twice and an answer that is no
    option. *)
Definition completion_inconsistent : pystr :=
  litq "{'questions': [{'question_number': 1, 'question': 'What is the median of 1, 2, 3?', 'options': [{'option': 'A', 'text': '2'}, {'option': 'A', 'text': '3'}], 'correct_answer': 'Z', 'explanation': 'The middle value.'}]}".

Definition inconsistent_test : DiagnosticTestResponse :=
  {| course_name := lit "Intro to Statistics";
     subject := lit "Statistics";
     target_grade_level := lit "undergraduate";
     total_questions := 1;
     questions :=
       [ {| question_number := 1;
            question := lit "What is the median of 1, 2, 3?";
            options := [ {| option_ := lit "A"; text := lit "2" |};
                         {| option_ := lit "A"; text := lit "3" |} ];
            correct_answer := lit "Z";
            explanation := lit "The middle value." |} ] |}.

(** One well-formed question. *)
Definition completion_one_question : pystr :=
  litq "```json
{'questions': [{'question_number': 1, 'question': 'What is the mode of 1, 1, 2?', 'options': [{'option': 'A', 'text': '1'}, {'option': 'B', 'text': '2'}, {'option': 'C', 'text': '3'}, {'option': 'D', 'text': '4'}], 'correct_answer': 'A', 'explanation': 'The most frequent value.'}]}
```".

Definition one_question_test : DiagnosticTestResponse :=
  {| course_name := lit "Intro to Statistics";
     subject := lit "Statistics";
     target_grade_level := lit "undergraduate";
     total_questions := 1;
     questions :=
       [ {| question_number := 1;
            question := lit "What is the mode of 1, 1, 2?";
            options := [ {| option_ := lit "A"; text := lit "1" |};
                         {| option_ := lit "B"; text := lit "2" |};
                         {| option_ := lit "C"; text := lit "3" |};
                         {| option_ := lit "D"; text := lit "4" |} ];
            correct_answer := lit "A";
            explanation := lit "The most frequent value." |} ] |}.

(** One question without its explanation. *)
Definition completion_missing_field : pystr :=
  litq "{'questions': [{'question_number': 1, 'question': 'What is the range of 1, 5?', 'options': [], 'correct_answer': 'A'}]}".

Definition missing_field_json : json :=
  JDict [ (lit "question_number", JInt 1);
          (lit "question", JStr (lit "What is the range of 1, 5?"));
          (lit "options", JList []);
          (lit "correct_answer", JStr (lit "A")) ].

(** Five questions asked for, none returned. *)
Definition no_questions_test : DiagnosticTestResponse :=
  {| course_name := lit "Intro to Statistics";
     subject := lit "Statistics";
     target_grade_level := lit "undergraduate";
     total_questions := 5;
     questions := [] |}.

(** The stubbed service: a credential, and [completion] as the answer. *)
Definition served (completion : pystr) : World :=
  stub_world (Some sk_test) completion.

End Fixtures.

Import Reference Fixtures.

(** ** Further names for the properties of the handlers *)

(** [t] is a contiguous part of [s]. *)
Definition part_of (t s : pystr) : Prop :=
  exists a b, s = a ++ t ++ b.

(** The prefix the [except] clauses put before [str(e)]: the first clause
    takes a [JSONDecodeError], the second everything else. *)
Definition detail_prefix (e : exn) : pystr :=
  match e with
  | JSONDecodeError _ => parse_prefix
  | _ => generic_prefix
  end.

(** With the credential [key], the service answers the call made for
    [request] with a first choice whose content is the text [raw]. *)
Definition answers_with (W : World) (request : DiagnosticTestRequest)
    (key raw : pystr) : Prop :=
  os_getenv W OPENAI_API_KEY = Some key
  /\ key <> []
  /\ exists rest,
       chat_completions_create W
         (completion_call {| api_key := key |} (build_prompt request))
       = inr {| choices := Some raw :: rest |}.

(** The four fields of [DiagnosticTestRequest]. *)
Definition request_fields : list string :=
  ["course_name"; "subject"; "target_grade_level"; "number_of_mcq"]%string.

(** A library whose validators take a value of the declared type as it
    is, which every version of pydantic does. *)
Definition exact_types_accepted (L : Library) : Prop :=
  (forall s, str_validator L (JStr s) = Some s)
  /\ (forall i, int_validator L (JInt i) = Some i).

(** A request body with the four fields, each of its declared type. *)
Definition typed_body (c s g : pystr) (n : Z) : json :=
  JDict [ (lit "course_name", JStr c);
          (lit "subject", JStr s);
          (lit "target_grade_level", JStr g);
          (lit "number_of_mcq", JInt n) ].

(** An option and a question as the objects the models read them from,
    every field of its declared type. *)
Definition option_json (o : MCQOption) : json :=
  JDict [ (lit "option", JStr (option_ o)); (lit "text", JStr (text o)) ].

Definition question_json (q : MCQQuestion) : json :=
  JDict [ (lit "question_number", JInt (question_number q));
          (lit "question", JStr (question q));
          (lit "options", JList (map option_json (options q)));
          (lit "correct_answer", JStr (correct_answer q));
          (lit "explanation", JStr (explanation q)) ].

Module Scenarios.

Import Reference Fixtures.

(** A service that answers every call with [response]. *)
Definition answering (response : ChatCompletion) : World :=
  {| os_getenv := environ (Some sk_test);
     chat_completions_create := fun _ => inr response |}.

(** A transport failure of the client. *)
Definition connection_error : exn := ClientError (lit "Connection error.").

(** A decoding failure inside the client. *)
Definition upstream_decode_error : exn :=
  JSONDecodeError (lit "Expecting value: line 1 column 1 (char 0)").

(** Documents that decode, and are not what the handler expects. *)
Definition completion_empty_object : pystr := lit "{}".
Definition completion_array : pystr := lit "[]".
Definition completion_questions_object : pystr :=
  litq "{'questions': {}}".

(** Two requests that differ and are interpolated to the same prompt. *)
Definition request_subject_in_name : DiagnosticTestRequest :=
  {| req_course_name := lit "Algebra" ++ LF ++ lit "Subject: Mathematics";
     req_subject := lit "Physics";
     req_target_grade_level := lit "undergraduate";
     number_of_mcq := 5 |}.

Definition request_subject_in_subject : DiagnosticTestRequest :=
  {| req_course_name := lit "Algebra";
     req_subject := lit "Mathematics" ++ LF ++ lit "Subject: Physics";
     req_target_grade_level := lit "undergraduate";
     number_of_mcq := 5 |}.

(** The question of [completion_one_question], and the same with two
    more keys. *)
Definition one_question_pairs : list (pystr * json) :=
  [ (lit "question_number", JInt 1);
    (lit "question", JStr (lit "What is the mode of 1, 1, 2?"));
    (lit "options",
     JList [ JDict [(lit "option", JStr (lit "A")); (lit "text", JStr (lit "1"))];
             JDict [(lit "option", JStr (lit "B")); (lit "text", JStr (lit "2"))] ]);
    (lit "correct_answer", JStr (lit "A"));
    (lit "explanation", JStr (lit "The most frequent value.")) ].

Definition one_question_pairs_extended : list (pystr * json) :=
  (lit "difficulty", JStr (lit "easy"))
    :: one_question_pairs ++ [(lit "topic", JNull)].

(** A question numbered -3, without options, answered by a letter that
    is none. *)
Definition degenerate_question : MCQQuestion :=
  {| question_number := -3;
     question := [];
     options := [];
     correct_answer := lit "E";
     explanation := [] |}.

(** An array that is never closed, holding an integer of 4301 digits. *)
Definition completion_long_integer : pystr :=
  lit "[" ++ repeat 49%N 4301.

(** What [json.loads] raises on it. *)
Definition long_integer_error : exn := JsonDecoder.int_too_long 4301.

(** A failure of the service that reads as the credential failure. *)
Definition credential_text_error : exn :=
  ClientError (lit "500: OpenAI API key not configured").



(** A body without its [subject]. *)
Definition body_without_subject : json :=
  JDict [ (lit "course_name", JStr (lit "Intro to Statistics"));
          (lit "target_grade_level", JStr (lit "undergraduate"));
          (lit "number_of_mcq", JInt 5) ].

End Scenarios.

Import Scenarios.

(** * Properties *)

(** ** Stripping *)

Section Strip.

Lemma lstrip_head_not_space (c : codepoint) (s : pystr) :
  isspace c = false -> lstrip (c :: s) = c :: s.
Proof. intros H. simpl. now rewrite H. Qed.

Lemma lstrip_spaces (a s : pystr) :
  forallb isspace a = true -> lstrip (a ++ s) = lstrip s.
Proof.
  induction a as [|c a IH]; simpl; [reflexivity|].
  intros H. apply andb_true_iff in H as [Hc Ha].
  rewrite Hc. now apply IH.
Qed.

(** The result of [lstrip] is empty or starts with a character that is
    not a space. *)
Lemma lstrip_shape (s : pystr) :
  lstrip s = [] \/
  exists c t, lstrip s = c :: t /\ isspace c = false.
Proof.
  induction s as [|c s IH]; simpl; [now left|].
  destruct (isspace c) eqn:Hc; [exact IH|].
  right. now exists c, s.
Qed.

Lemma lstrip_idem (s : pystr) : lstrip (lstrip s) = lstrip s.
Proof.
  destruct (lstrip_shape s) as [-> | (c & t & -> & Hc)];
    [reflexivity | now apply lstrip_head_not_space].
Qed.

(** Appending after a string that does not consist of spaces only
    leaves its [lstrip] in front. *)
Lemma lstrip_app (s b : pystr) :
  lstrip (s ++ b) =
  match lstrip s with
  | [] => lstrip b
  | _ :: _ => lstrip s ++ b
  end.
Proof.
  induction s as [|c s IH]; simpl.
  - now destruct (lstrip b).
  - destruct (isspace c); [exact IH | reflexivity].
Qed.

Lemma rstrip_nil : rstrip [] = [].
Proof. reflexivity. Qed.

Lemma rstrip_last_not_space (s : pystr) (d : codepoint) :
  isspace d = false -> rstrip (s ++ [d]) = s ++ [d].
Proof.
  intros H. unfold rstrip. rewrite rev_app_distr. simpl.
  rewrite H. simpl. now rewrite rev_involutive.
Qed.

Lemma rstrip_spaces (s a : pystr) :
  forallb isspace a = true -> rstrip (s ++ a) = rstrip s.
Proof.
  intros H. unfold rstrip. rewrite rev_app_distr.
  rewrite lstrip_spaces; [reflexivity|].
  rewrite forallb_forall in *. intros x Hx. apply H.
  now apply in_rev.
Qed.

Lemma rstrip_idem (s : pystr) : rstrip (rstrip s) = rstrip s.
Proof.
  unfold rstrip. now rewrite rev_involutive, lstrip_idem.
Qed.

Lemma rstrip_cons_not_space (c : codepoint) (s : pystr) :
  isspace c = false -> rstrip (c :: s) = c :: rstrip s.
Proof.
  intros H. unfold rstrip. simpl. rewrite lstrip_app.
  destruct (lstrip (rev s)) eqn:E.
  - simpl. now rewrite H.
  - rewrite rev_app_distr. reflexivity.
Qed.

(** [rstrip] keeps a string free of leading spaces that way. *)
Lemma lstrip_rstrip_lstrip (s : pystr) :
  lstrip (rstrip (lstrip s)) = rstrip (lstrip s).
Proof.
  destruct (lstrip_shape s) as [-> | (c & t & -> & Hc)]; [reflexivity|].
  rewrite rstrip_cons_not_space by assumption.
  now apply lstrip_head_not_space.
Qed.

Lemma strip_idem (s : pystr) : strip (strip s) = strip s.
Proof.
  unfold strip. now rewrite lstrip_rstrip_lstrip, rstrip_idem.
Qed.

(** Spaces around a text do not change what [strip] returns. *)
Lemma strip_surrounded (a s b : pystr) :
  forallb isspace a = true -> forallb isspace b = true ->
  strip (a ++ s ++ b) = strip s.
Proof.
  intros Ha Hb. unfold strip. rewrite lstrip_spaces by assumption.
  rewrite lstrip_app. destruct (lstrip s) eqn:E.
  - assert (lstrip b = []) as ->; [|reflexivity].
    clear -Hb. induction b as [|c b IH]; simpl in *; [reflexivity|].
    apply andb_true_iff in Hb as [-> Hb]. now apply IH.
  - now apply rstrip_spaces.
Qed.

(** A text whose two ends are not spaces is its own [strip]. *)
Lemma strip_fixed (c d : codepoint) (s : pystr) :
  isspace c = false -> isspace d = false ->
  strip (c :: s ++ [d]) = c :: s ++ [d].
Proof.
  intros Hc Hd. unfold strip. rewrite lstrip_head_not_space by assumption.
  change (c :: s ++ [d]) with ((c :: s) ++ [d]).
  now apply rstrip_last_not_space.
Qed.

End Strip.

(** ** Prefixes and suffixes *)

Section Affixes.

Lemma startswith_app (p s : pystr) : startswith (p ++ s) p = true.
Proof.
  induction p as [|a p IH]; simpl; [reflexivity|].
  now rewrite N.eqb_refl.
Qed.

Lemma startswith_inv (p s : pystr) :
  startswith s p = true -> s = p ++ skipn (List.length p) s.
Proof.
  revert s. induction p as [|a p IH]; intros s H; [reflexivity|].
  destruct s as [|b s]; simpl in *; [discriminate|].
  apply andb_true_iff in H as [Hab H].
  apply N.eqb_eq in Hab. subst b. f_equal. now apply IH.
Qed.

(** A string that starts with [p ++ q] starts with [p]. *)
Lemma startswith_longer (p q s : pystr) :
  startswith s (p ++ q) = true -> startswith s p = true.
Proof.
  revert s. induction p as [|a p IH]; intros s H; [reflexivity|].
  destruct s as [|b s]; simpl in *; [discriminate|].
  apply andb_true_iff in H as [-> H]. simpl. now apply IH with (1 := H).
Qed.

(** What a string starts with, it still starts with when extended. *)
Lemma startswith_extend (p s t : pystr) :
  startswith s p = true -> startswith (s ++ t) p = true.
Proof.
  revert s. induction p as [|a p IH]; intros s H; [reflexivity|].
  destruct s as [|b s]; simpl in *; [discriminate|].
  apply andb_true_iff in H as [-> H]. simpl. now apply IH.
Qed.

Lemma endswith_app (s p : pystr) : endswith (s ++ p) p = true.
Proof.
  unfold endswith. rewrite rev_app_distr. apply startswith_app.
Qed.

Lemma endswith_inv (p s : pystr) :
  endswith s p = true -> exists t, s = t ++ p.
Proof.
  unfold endswith. intros H. apply startswith_inv in H.
  exists (rev (skipn (List.length (rev p)) (rev s))).
  rewrite <- (rev_involutive p) at 2. rewrite <- rev_app_distr.
  rewrite <- H. now rewrite rev_involutive.
Qed.

(** What a string ends with, it still ends with behind a prefix. *)
Lemma endswith_behind (a s p : pystr) :
  endswith s p = true -> endswith (a ++ s) p = true.
Proof.
  unfold endswith. intros H. rewrite rev_app_distr.
  now apply startswith_extend.
Qed.

Lemma endswith_behind_false (a s p : pystr) :
  endswith (a ++ s) p = false -> endswith s p = false.
Proof.
  intros H. destruct (endswith s p) eqn:E; [|reflexivity].
  now rewrite (endswith_behind a _ _ E) in H.
Qed.

Lemma slice_to_minus_app (s p : pystr) :
  slice_to_minus (List.length p) (s ++ p) = s.
Proof.
  unfold slice_to_minus. rewrite length_app.
  replace (List.length s + List.length p - List.length p)
    with (List.length s + 0) by lia.
  rewrite firstn_app_2. simpl. apply app_nil_r.
Qed.

Lemma slice_from_app (p s : pystr) :
  slice_from (List.length p) (p ++ s) = s.
Proof.
  unfold slice_from. induction p; simpl; auto.
Qed.

Lemma drop_fence_json (s : pystr) : slice_from 7 (fence_json ++ s) = s.
Proof. reflexivity. Qed.

Lemma drop_fence (s : pystr) : slice_from 3 (fence ++ s) = s.
Proof. reflexivity. Qed.

Lemma drop_closing_fence (s : pystr) : slice_to_minus 3 (s ++ fence) = s.
Proof. exact (slice_to_minus_app s fence). Qed.

(** The bare marker is a prefix of the tagged one. *)
Lemma fence_json_fence : fence_json = fence ++ lit "json".
Proof. reflexivity. Qed.

Lemma not_fence_not_fence_json (s : pystr) :
  startswith s fence = false -> startswith s fence_json = false.
Proof.
  intros H. destruct (startswith s fence_json) eqn:E; [|reflexivity].
  rewrite fence_json_fence in E.
  now rewrite (startswith_longer _ _ _ E) in H.
Qed.

End Affixes.

(** ** The cleaner *)

Section Cleaner.

(** The steps of [clean_content] on a text already stripped. *)
Lemma clean_content_unfold (raw : pystr) :
  clean_content raw =
  let c0 := strip raw in
  let c1 := if startswith c0 fence_json then slice_from 7 c0 else c0 in
  let c2 := if startswith c1 fence then slice_from 3 c1 else c1 in
  let c3 := if endswith c2 fence then slice_to_minus 3 c2 else c2 in
  strip c3.
Proof. reflexivity. Qed.

(** A text without markers is only trimmed. *)
Lemma clean_unfenced (s : pystr) :
  startswith (strip s) fence = false ->
  endswith (strip s) fence = false ->
  clean_content s = strip s.
Proof.
  intros Hs He. rewrite clean_content_unfold. cbv zeta.
  rewrite (not_fence_not_fence_json _ Hs), Hs, He.
  apply strip_idem.
Qed.

(** A text between an opening marker on a line of its own and a
    closing marker is trimmed of the markers and of the spaces around
    it, and nothing more. *)
Lemma clean_fenced (opener body : pystr) :
  opener = fence_json \/ opener = fence ->
  clean_content (opener ++ LF ++ body ++ LF ++ fence) = strip body.
Proof.
  intros Ho. rewrite clean_content_unfold. cbv zeta.
  assert (Hfix : strip (opener ++ LF ++ body ++ LF ++ fence)
                 = opener ++ LF ++ body ++ LF ++ fence).
  { assert (Hshape : opener ++ LF ++ body ++ LF ++ fence
              = 96%N :: (tl opener ++ LF ++ body ++ LF ++ lit "``") ++ [96%N]).
    { destruct Ho as [-> | ->]; cbn; rewrite <- !app_assoc; reflexivity. }
    rewrite Hshape. now apply strip_fixed. }
  rewrite Hfix.
  destruct Ho as [-> | ->].
  - rewrite startswith_app.
    rewrite drop_fence_json.
    change (startswith (LF ++ body ++ LF ++ fence) fence) with false.
    cbv iota.
    replace (LF ++ body ++ LF ++ fence) with ((LF ++ body ++ LF) ++ fence)
      by (now rewrite <- !app_assoc).
    rewrite endswith_app.
    rewrite drop_closing_fence.
    now apply strip_surrounded.
  - change (startswith (fence ++ LF ++ body ++ LF ++ fence) fence_json)
      with false.
    cbv iota. rewrite startswith_app.
    rewrite drop_fence.
    replace (LF ++ body ++ LF ++ fence) with ((LF ++ body ++ LF) ++ fence)
      by (now rewrite <- !app_assoc).
    rewrite endswith_app.
    rewrite drop_closing_fence.
    now apply strip_surrounded.
Qed.

End Cleaner.

(** C4.  On the completion made of a leading [```json] marker, a line
    feed, the text [{"questions":[]}], a line feed and a trailing [```]
    marker, the cleaner returns exactly [{"questions":[]}].  Whatever text
    stands between the line feeds, what the cleaner takes away is the
    leading [```json] or bare [```] marker, the trailing [```] marker and
    the whitespace around the text, and nothing else. *)
Theorem clean_strips_exactly_the_fences :
  clean_content fenced_questions_empty_compact = questions_empty_compact
  /\ fenced_questions_empty_compact
     = fence_json ++ LF ++ questions_empty_compact ++ LF ++ fence
  /\ clean_content (fence ++ LF ++ questions_empty_compact ++ LF ++ fence)
     = questions_empty_compact
  /\ (forall body : pystr,
        clean_content (fence_json ++ LF ++ body ++ LF ++ fence) = strip body)
  /\ (forall body : pystr,
        clean_content (fence ++ LF ++ body ++ LF ++ fence) = strip body).
Proof.
  repeat split; try reflexivity.
  - intros body. apply clean_fenced. now left.
  - intros body. apply clean_fenced. now right.
Qed.

(** C5.  Cleanup is idempotent on already-clean JSON.  For a text that,
    once trimmed, carries no fence marker at either end (as
    [{"questions": []}] does), the cleaner only trims; cleaning twice is
    cleaning once; and the text cleans to the same string, hence decodes
    to the same value or the same failure, whether it is given bare or
    wrapped in fence markers. *)
Theorem clean_idempotent_on_clean_json (L : Library) (s : pystr) :
  startswith (strip s) fence = false ->
  endswith (strip s) fence = false ->
  clean_content s = strip s
  /\ clean_content (clean_content s) = clean_content s
  /\ forall opener : pystr,
       opener = fence_json \/ opener = fence ->
       clean_content (opener ++ LF ++ s ++ LF ++ fence) = clean_content s
       /\ json_loads L (clean_content (opener ++ LF ++ s ++ LF ++ fence))
          = json_loads L (clean_content s).
Proof.
  intros Hs He.
  assert (Hclean : clean_content s = strip s) by now apply clean_unfenced.
  split; [exact Hclean|]. split.
  - rewrite Hclean.
    rewrite (clean_unfenced (strip s)); rewrite ?strip_idem; auto.
  - intros opener Ho.
    assert (Hw : clean_content (opener ++ LF ++ s ++ LF ++ fence)
                 = clean_content s)
      by (rewrite Hclean; now apply clean_fenced).
    split; [exact Hw | now rewrite Hw].
Qed.

(** The instance of C5 at [{"questions": []}], decoded by the reference
    decoder. *)
Lemma clean_idempotent_on_clean_json_witness :
  startswith (strip questions_empty) fence = false
  /\ endswith (strip questions_empty) fence = false
  /\ clean_content questions_empty = questions_empty
  /\ clean_content (clean_content questions_empty)
     = clean_content questions_empty
  /\ json_loads Reference.library
       (clean_content (fence_json ++ LF ++ questions_empty ++ LF ++ fence))
     = json_loads Reference.library (clean_content questions_empty)
  /\ json_loads Reference.library (clean_content questions_empty)
     = inr (JDict [(lit "questions", JList [])]).
Proof.
  assert (Hs : startswith (strip questions_empty) fence = false)
    by reflexivity.
  assert (He : endswith (strip questions_empty) fence = false)
    by reflexivity.
  destruct (clean_idempotent_on_clean_json Reference.library
              questions_empty Hs He) as (H1 & H2 & H3).
  destruct (H3 fence_json (or_introl eq_refl)) as [_ H4].
  repeat split; try assumption; reflexivity.
Defined.

(** C10.  The cleaner strips each marker on its own.  A completion that,
    once trimmed, starts with [```json] or with a bare [```] and does not
    end with [```] still loses the leading marker; one that ends with
    [```] and does not start with it still loses the trailing marker. *)
Theorem fences_stripped_independently (raw body : pystr) :
  (strip raw = fence_json ++ body ->
   endswith (strip raw) fence = false ->
   clean_content raw
   = strip (if startswith body fence then slice_from 3 body else body))
  /\ (strip raw = fence ++ body ->
      startswith (strip raw) fence_json = false ->
      endswith (strip raw) fence = false ->
      clean_content raw = strip body)
  /\ (strip raw = body ++ fence ->
      startswith (strip raw) fence = false ->
      clean_content raw = strip body).
Proof.
  repeat split.
  - intros Hraw He. rewrite clean_content_unfold. cbv zeta.
    rewrite Hraw in *. rewrite startswith_app, drop_fence_json.
    apply endswith_behind_false in He.
    destruct (startswith body fence) eqn:Hb.
    + rewrite (startswith_inv _ _ Hb) in He.
      apply endswith_behind_false in He.
      change (List.length fence) with 3 in He.
      unfold slice_from. now rewrite He.
    + now rewrite He.
  - intros Hraw Hj He. rewrite clean_content_unfold. cbv zeta.
    rewrite Hj. rewrite Hraw in *. rewrite startswith_app, drop_fence.
    apply endswith_behind_false in He. now rewrite He.
  - intros Hraw Hs. rewrite clean_content_unfold. cbv zeta.
    rewrite (not_fence_not_fence_json _ Hs), Hs.
    rewrite Hraw. now rewrite endswith_app, drop_closing_fence.
Qed.

Lemma fences_stripped_independently_witness :
  clean_content only_json_fence = questions_empty
  /\ clean_content only_bare_fence = questions_empty
  /\ clean_content only_closing_fence = questions_empty.
Proof.
  split; [|split].
  - destruct (fences_stripped_independently only_json_fence
                (LF ++ questions_empty)) as (H & _ & _).
    rewrite H; reflexivity.
  - destruct (fences_stripped_independently only_bare_fence
                (LF ++ questions_empty)) as (_ & H & _).
    rewrite H; reflexivity.
  - destruct (fences_stripped_independently only_closing_fence
                (questions_empty ++ LF)) as (_ & _ & H).
    rewrite H; reflexivity.
Defined.

(** ** The handler, stage by stage *)

Section ServiceFacts.

Variable L : Library.
Variable W : World.

#[local] Arguments clean_content : simpl never.
#[local] Arguments build_prompt : simpl never.
#[local] Arguments completion_call : simpl never.

Lemma bool_of_str_true (o : Datatypes.option pystr) :
  bool_of_str o = true <-> exists key, o = Some key /\ key <> [].
Proof.
  split.
  - destruct o as [[|c k]|]; simpl; try discriminate.
    intros _. exists (c :: k). split; [reflexivity | discriminate].
  - intros (key & -> & Hk). destruct key; [contradiction | reflexivity].
Qed.

Lemma bool_of_str_false (o : Datatypes.option pystr) :
  bool_of_str o = false <-> o = None \/ o = Some [].
Proof.
  split.
  - destruct o as [[|c k]|]; simpl; try discriminate; auto.
  - intros [-> | ->]; reflexivity.
Qed.

(** Without a credential the client is not built and nothing is sent. *)
Lemma get_openai_client_missing (log : list CompletionCall) :
  bool_of_str (os_getenv W OPENAI_API_KEY) = false ->
  get_openai_client W log = (inl (HTTPException 500 not_configured), log).
Proof.
  unfold get_openai_client. fold OPENAI_API_KEY.
  destruct (os_getenv W OPENAI_API_KEY) as [key|]; [|reflexivity].
  intros ->. reflexivity.
Qed.

Lemma get_openai_client_present (key : pystr) (log : list CompletionCall) :
  os_getenv W OPENAI_API_KEY = Some key -> key <> [] ->
  get_openai_client W log = (inr {| api_key := key |}, log).
Proof.
  unfold get_openai_client. fold OPENAI_API_KEY. intros -> Hk.
  destruct key; [contradiction | reflexivity].
Qed.

Lemma generate_body_missing (request : DiagnosticTestRequest)
    (log : list CompletionCall) :
  bool_of_str (os_getenv W OPENAI_API_KEY) = false ->
  generate_body L W request log
  = (inl (HTTPException 500 not_configured), log).
Proof.
  intros H. unfold generate_body, bind.
  now rewrite (get_openai_client_missing log H).
Qed.

(** With a credential, exactly one call is made, and the body is what
    [interpret] makes of its answer. *)
Lemma generate_body_present (request : DiagnosticTestRequest) (key : pystr)
    (log : list CompletionCall) :
  os_getenv W OPENAI_API_KEY = Some key -> key <> [] ->
  let call := completion_call {| api_key := key |} (build_prompt request) in
  generate_body L W request log
  = (match chat_completions_create W call with
     | inl e => inl e
     | inr response => interpret L request response
     end, log ++ [call]).
Proof.
  intros Hkey Hk call. unfold generate_body, bind.
  rewrite (get_openai_client_present log Hkey Hk).
  unfold create. cbn [api_key]. fold call.
  destruct (chat_completions_create W call) as [e|response]; [reflexivity|].
  unfold interpret, lift, ret.
  destruct (first_choice response) as [e|choice]; [reflexivity|].
  destruct (message_content choice) as [e|raw]; [reflexivity|].
  destruct (loads L (clean_content raw)) as [e|test_data]; [reflexivity|].
  destruct (getitem_questions L test_data) as [e|questions]; [reflexivity|].
  now destruct (new_DiagnosticTestResponse L _ _ _ _ questions).
Qed.


(** The two prefixes differ in their first letter. *)
Lemma parse_detail_not_generic (m m' : pystr) :
  parse_prefix ++ m <> generic_prefix ++ m'.
Proof. discriminate. Qed.

(** The [except] clauses turn every exception into another one. *)
Lemma handled_success (m : M DiagnosticTestResponse)
    (log log' : list CompletionCall) (test : DiagnosticTestResponse) :
  try_except m (handle L) log = (inr test, log') ->
  m log = (inr test, log').
Proof.
  unfold try_except. destruct (m log) as [[e|t] l]; [|auto].
  destruct e; discriminate.
Qed.

(** What [interpret] returns when it returns a test. *)
Lemma interpret_success_inv (request : DiagnosticTestRequest)
    (response : ChatCompletion) (test : DiagnosticTestResponse) :
  interpret L request response = inr test ->
  exists raw rest d items qs,
    choices response = Some raw :: rest
    /\ json_loads L (clean_content raw) = inr (JDict d)
    /\ dict_get (lit "questions") d = Some (JList items)
    /\ all_or_none (validate_MCQQuestion L) items = Some qs
    /\ test = {| course_name := req_course_name request;
                 subject := req_subject request;
                 target_grade_level := req_target_grade_level request;
                 total_questions := number_of_mcq request;
                 questions := qs |}.
Proof.
  unfold interpret, first_choice. intros H.
  destruct (choices response) as [|[raw|] rest] eqn:Hc;
    try discriminate H.
  unfold message_content, loads in H.
  destruct (json_loads L (clean_content raw)) as [m|v] eqn:Hv;
    [discriminate H|].
  unfold getitem_questions in H.
  destruct v as [| | | | |items0|d]; try discriminate H.
  destruct (dict_get (lit "questions") d) as [q|] eqn:Hq;
    [|discriminate H].
  unfold new_DiagnosticTestResponse, validate_questions in H.
  destruct q as [| | | | |items|d0]; try discriminate H.
  destruct (all_or_none (validate_MCQQuestion L) items) as [qs|] eqn:Hqs;
    [|discriminate H].
  inversion H; subst.
  exists raw, rest, d, items, qs. repeat split; auto.
Qed.

(** A successful run, read backwards. *)
Lemma generate_success_inv (request : DiagnosticTestRequest)
    (log log' : list CompletionCall) (test : DiagnosticTestResponse) :
  generate_diagnostic_test L W request log = (inr test, log') ->
  exists key response raw rest d items qs,
    os_getenv W OPENAI_API_KEY = Some key /\ key <> []
    /\ chat_completions_create W
         (completion_call {| api_key := key |} (build_prompt request))
       = inr response
    /\ choices response = Some raw :: rest
    /\ json_loads L (clean_content raw) = inr (JDict d)
    /\ dict_get (lit "questions") d = Some (JList items)
    /\ all_or_none (validate_MCQQuestion L) items = Some qs
    /\ test = {| course_name := req_course_name request;
                 subject := req_subject request;
                 target_grade_level := req_target_grade_level request;
                 total_questions := number_of_mcq request;
                 questions := qs |}
    /\ log' = log ++ [completion_call {| api_key := key |}
                        (build_prompt request)].
Proof.
  unfold generate_diagnostic_test. intros H.
  apply handled_success in H.
  destruct (bool_of_str (os_getenv W OPENAI_API_KEY)) eqn:Hb.
  - apply bool_of_str_true in Hb as (key & Hkey & Hk).
    rewrite (generate_body_present request log Hkey Hk) in H. cbv zeta in H.
    destruct (chat_completions_create W _) as [e|response] eqn:Hcall;
      [discriminate H|].
    inversion H as [[Hi Hlog]].
    apply interpret_success_inv in Hi
      as (raw & rest & d & items & qs & H1 & H2 & H3 & H4 & H5).
    exists key, response, raw, rest, d, items, qs. repeat split; auto.
  - rewrite (generate_body_missing request log Hb) in H. discriminate H.
Qed.

End ServiceFacts.

(** Closes a goal that says a chain of field validations fails, once one
    of its links is known to. *)
Ltac refuse :=
  simpl; try reflexivity;
  repeat match goal with
         | |- obind ?o _ = None => destruct o; simpl; try reflexivity
         end.

Section ModelFacts.

Variable L : Library.

Lemma all_or_none_length {A B} (f : A -> Datatypes.option B) (l : list A)
    (l' : list B) :
  all_or_none f l = Some l' -> List.length l' = List.length l.
Proof.
  revert l'. induction l as [|a l IH]; simpl; intros l' H.
  - now inversion H.
  - destruct (f a) as [b|]; simpl in H; [|discriminate].
    destruct (all_or_none f l) as [bs|]; simpl in H; [|discriminate].
    inversion H. simpl. f_equal. now apply IH.
Qed.

Lemma all_or_none_Forall2 {A B} (f : A -> Datatypes.option B) (l : list A)
    (l' : list B) :
  all_or_none f l = Some l' -> Forall2 (fun b a => f a = Some b) l' l.
Proof.
  revert l'. induction l as [|a l IH]; simpl; intros l' H.
  - inversion H. constructor.
  - destruct (f a) as [b|] eqn:Hb; simpl in H; [|discriminate].
    destruct (all_or_none f l) as [bs|]; simpl in H; [|discriminate].
    inversion H. constructor; auto.
Qed.

(** One refused element refuses the list. *)
Lemma all_or_none_refused {A B} (f : A -> Datatypes.option B) (l : list A)
    (a : A) :
  In a l -> f a = None -> all_or_none f l = None.
Proof.
  induction l as [|x l IH]; simpl; [contradiction|].
  intros [-> | Hin] Ha.
  - now rewrite Ha.
  - destruct (f x); [|reflexivity]. simpl. now rewrite (IH Hin Ha).
Qed.

Lemma malformed_option_refused (v : json) :
  malformed_option L v -> validate_MCQOption L v = None.
Proof.
  intros [v' Hv | d name Hin Hget | d name w Hin Hget Hw].
  - destruct v'; try reflexivity. now contradiction (Hv pairs).
  - unfold validate_MCQOption, str_field.
    destruct Hin as [<- | [<- | []]]; rewrite ?Hget; simpl; [reflexivity|].
    refuse.
  - unfold validate_MCQOption, str_field.
    destruct Hin as [<- | [<- | []]]; rewrite ?Hget; simpl; rewrite ?Hw;
      [reflexivity|].
    refuse.
Qed.

Lemma malformed_question_refused (v : json) :
  malformed_question L v -> validate_MCQQuestion L v = None.
Proof.
  intros H. destruct H as [v Hv | d name Hin Hget | d w Hget Hw
                          | d name w Hin Hget Hw | d w Hget Hw
                          | d os o Hget Hin Ho].
  - destruct v; try reflexivity. now contradiction (Hv pairs).
  - unfold validate_MCQQuestion, int_field, str_field, list_field.
    destruct Hin as [<- | [<- | [<- | [<- | [<- | []]]]]];
      rewrite Hget; simpl;
      refuse.
  - unfold validate_MCQQuestion, int_field. rewrite Hget. simpl.
    now rewrite Hw.
  - unfold validate_MCQQuestion, int_field, str_field, list_field.
    destruct Hin as [<- | [<- | [<- | []]]];
      rewrite Hget; simpl; rewrite Hw;
      refuse.
  - unfold validate_MCQQuestion, int_field, str_field, list_field.
    rewrite Hget. simpl.
    assert (Hno : match w with
                  | JList items => all_or_none (validate_MCQOption L) items
                  | _ => None
                  end = None)
      by (destruct w; try reflexivity; now contradiction (Hw items)).
    rewrite Hno.
    refuse.
  - unfold validate_MCQQuestion, int_field, str_field, list_field.
    rewrite Hget. simpl.
    rewrite (all_or_none_refused _ _ _ Hin (malformed_option_refused Ho)).
    refuse.
Qed.

Lemma validate_MCQOption_inv (v : json) (o : MCQOption) :
  validate_MCQOption L v = Some o -> option_of L o v.
Proof.
  unfold validate_MCQOption, str_field, option_of.
  destruct v as [| | | | | |d]; try discriminate.
  destruct (dict_get (lit "option") d) as [a|] eqn:Ga; [|discriminate]. simpl.
  destruct (str_validator L a) as [x|] eqn:Ha; [|discriminate]. simpl.
  destruct (dict_get (lit "text") d) as [b|] eqn:Gb; [|discriminate]. simpl.
  destruct (str_validator L b) as [y|] eqn:Hb; [|discriminate]. simpl.
  intros H. inversion H. exists d, a, b. simpl. repeat split; auto.
Qed.

Lemma validate_MCQQuestion_inv (v : json) (q : MCQQuestion) :
  validate_MCQQuestion L v = Some q -> question_of L q v.
Proof.
  unfold validate_MCQQuestion, int_field, str_field, list_field, question_of.
  destruct v as [| | | | | |d]; try discriminate.
  destruct (dict_get (lit "question_number") d) as [n|] eqn:Gn;
    [|discriminate]. simpl.
  destruct (int_validator L n) as [n'|] eqn:Hn; [|discriminate]. simpl.
  destruct (dict_get (lit "question") d) as [t|] eqn:Gt; [|discriminate].
  simpl. destruct (str_validator L t) as [t'|] eqn:Ht; [|discriminate].
  simpl.
  destruct (dict_get (lit "options") d) as [w|] eqn:Gw; [|discriminate]. simpl.
  destruct w as [| | | | |os|]; try discriminate.
  destruct (all_or_none (validate_MCQOption L) os) as [vs|] eqn:Hos;
    [|discriminate]. simpl.
  destruct (dict_get (lit "correct_answer") d) as [c|] eqn:Gc; [|discriminate].
  simpl. destruct (str_validator L c) as [x|] eqn:Hc; [|discriminate]. simpl.
  destruct (dict_get (lit "explanation") d) as [e|] eqn:Ge; [|discriminate].
  simpl. destruct (str_validator L e) as [e'|] eqn:He; [|discriminate].
  simpl.
  intros H. inversion H. exists d, n, t, os, c, e. simpl.
  repeat split; auto.
  apply all_or_none_Forall2 in Hos.
  eapply Forall2_impl; [|exact Hos].
  intros o v0. apply validate_MCQOption_inv.
Qed.

(** A validated request has its count between 1 and 50. *)
Lemma validated_request_in_range (body : json)
    (request : DiagnosticTestRequest) :
  validate_DiagnosticTestRequest L body = Some request ->
  (1 <= number_of_mcq request <= 50)%Z.
Proof.
  unfold validate_DiagnosticTestRequest.
  destruct body as [| | | | | |d]; try discriminate.
  destruct (str_field L "course_name" d); [|discriminate]. simpl.
  destruct (str_field L "subject" d); [|discriminate]. simpl.
  destruct (str_field L "target_grade_level" d); [|discriminate]. simpl.
  destruct (int_field L "number_of_mcq" d) as [i|]; [|discriminate]. simpl.
  unfold ge_le.
  destruct ((1 <=? i)%Z && (i <=? 50)%Z) eqn:Hi; [|discriminate]. simpl.
  intros H. inversion H. simpl.
  apply andb_true_iff in Hi as [Hlo Hhi]. lia.
Qed.

(** A count outside the interval fails the request model. *)
Lemma out_of_range_refused (d : list (pystr * json)) (v : json) (n : Z) :
  dict_get (lit "number_of_mcq") d = Some v ->
  int_validator L v = Some n ->
  (n < 1 \/ 50 < n)%Z ->
  validate_DiagnosticTestRequest L (JDict d) = None.
Proof.
  intros Hget Hv Hn. unfold validate_DiagnosticTestRequest.
  destruct (str_field L "course_name" d); [|reflexivity]. simpl.
  destruct (str_field L "subject" d); [|reflexivity]. simpl.
  destruct (str_field L "target_grade_level" d); [|reflexivity]. simpl.
  unfold int_field. rewrite Hget. simpl. rewrite Hv. simpl.
  unfold ge_le.
  assert (Hb : (1 <=? n)%Z && (n <=? 50)%Z = false).
  { apply andb_false_iff. destruct Hn; [left | right]; lia. }
  now rewrite Hb.
Qed.

End ModelFacts.

(** ** The service *)

Section Claims.

Variable L : Library.
Variable W : World.

#[local] Arguments clean_content : simpl never.
#[local] Arguments build_prompt : simpl never.
#[local] Arguments completion_call : simpl never.

(** C1.  For every valid request with [number_of_mcq = n], [1 <= n <= 50],
    whose pipeline succeeds, the returned test has [total_questions = n].
    The questions it carries are as many as the array decoded from the
    model output has elements, whatever that number is; no relation to
    [n] is required of it. *)
Theorem total_questions_echoes_request (request : DiagnosticTestRequest)
    (n : Z) (log log' : list CompletionCall)
    (test : DiagnosticTestResponse) :
  number_of_mcq request = n ->
  (1 <= n <= 50)%Z ->
  generate_diagnostic_test L W request log = (inr test, log') ->
  total_questions test = n
  /\ exists raw d items,
       json_loads L (clean_content raw) = inr (JDict d)
       /\ dict_get (lit "questions") d = Some (JList items)
       /\ List.length (questions test) = List.length items.
Proof.
  intros Hn _ H.
  apply generate_success_inv in H
    as (key & response & raw & rest & d & items & qs
        & _ & _ & _ & _ & Hv & Hq & Hqs & -> & _).
  split; [exact Hn|].
  exists raw, d, items. repeat split; auto.
  simpl. now apply all_or_none_length with (1 := Hqs).
Qed.

(** C2.  A request whose [number_of_mcq] is an integer outside [1, 50]
    is answered with status 422 by request validation, and the log of
    outbound calls is what it was: the completion API is not invoked. *)
Theorem out_of_range_rejected_before_any_call (d : list (pystr * json))
    (v : json) (n : Z) (log : list CompletionCall) :
  dict_get (lit "number_of_mcq") d = Some v ->
  int_validator L v = Some n ->
  (n < 1 \/ 50 < n)%Z ->
  post_generate_test L W (JDict d) log
  = (inr {| http_status := 422; http_body := ValidationBody (JDict d) |},
     log).
Proof.
  intros Hget Hv Hn. unfold post_generate_test.
  now rewrite (out_of_range_refused L d Hget Hv Hn).
Qed.

(** C3, as amended.  When [json.loads] raises on the completion text,
    fence-stripped and trimmed, the handler raises an [HTTPException] of
    status 500 after its one call and returns no test, and the endpoint
    answers 500 with the same detail.  When what is raised is a
    [JSONDecodeError], the detail is the parse-failure prefix followed by
    the decoder's message, which no detail of the generic clause equals.
    When it is any other exception, the detail is the generic prefix
    followed by the text of the exception. *)
Theorem decode_failure_is_reported_by_class (request : DiagnosticTestRequest)
    (log : list CompletionCall) (key : pystr) (response : ChatCompletion)
    (raw : pystr) (rest : list (Datatypes.option pystr)) (e : exn) :
  os_getenv W OPENAI_API_KEY = Some key -> key <> [] ->
  chat_completions_create W
    (completion_call {| api_key := key |} (build_prompt request))
  = inr response ->
  choices response = Some raw :: rest ->
  json_loads L (clean_content raw) = inl e ->
  let call := completion_call {| api_key := key |} (build_prompt request) in
  let detail := detail_prefix e ++ str_exn L e in
  generate_diagnostic_test L W request log
  = (inl (HTTPException 500 detail), log ++ [call])
  /\ (forall msg, e = JSONDecodeError msg ->
        detail = parse_prefix ++ msg
        /\ forall m, detail <> generic_prefix ++ m)
  /\ ((forall msg, e <> JSONDecodeError msg) ->
        detail = generic_prefix ++ str_exn L e
        /\ forall m, detail <> parse_prefix ++ m)
  /\ (forall body,
        validate_DiagnosticTestRequest L body = Some request ->
        post_generate_test L W body log
        = (inr {| http_status := 500; http_body := DetailBody detail |},
           log ++ [call])).
Proof.
  intros Hkey Hk Hcall Hchoices Hloads call detail. subst call detail.
  assert (Hrun : generate_diagnostic_test L W request log
                 = (inl (HTTPException 500 (detail_prefix e ++ str_exn L e)),
                    log ++ [completion_call {| api_key := key |}
                              (build_prompt request)])).
  { unfold generate_diagnostic_test, try_except.
    rewrite (generate_body_present L W request log Hkey Hk). cbv zeta.
    rewrite Hcall.
    unfold interpret, first_choice. rewrite Hchoices.
    unfold message_content, loads. rewrite Hloads.
    destruct e; reflexivity. }
  split; [exact Hrun|]. split; [|split].
  - intros msg ->. split; [reflexivity|].
    intros m. apply parse_detail_not_generic.
  - intros He.
    assert (Hp : detail_prefix e = generic_prefix)
      by (destruct e; try reflexivity; now contradiction (He msg)).
    rewrite Hp. split; [reflexivity|].
    intros m Heq. symmetry in Heq. revert Heq.
    apply parse_detail_not_generic.
  - intros body Hbody. unfold post_generate_test.
    now rewrite Hbody, Hrun.
Qed.

(** The run without a credential: [get_openai_client] raises before
    anything is sent, the catch-all clause takes what it raises, and the
    log of outbound calls is unchanged. *)
Lemma missing_credential_run
    (request : DiagnosticTestRequest) (log : list CompletionCall) :
  bool_of_str (os_getenv W OPENAI_API_KEY) = false ->
  let detail :=
    generic_prefix ++ str_HTTPException L 500 not_configured in
  get_openai_client W log = (inl (HTTPException 500 not_configured), log)
  /\ generate_diagnostic_test L W request log
     = (inl (HTTPException 500 detail), log)
  /\ (forall m, detail <> parse_prefix ++ m)
  /\ (forall body,
        validate_DiagnosticTestRequest L body = Some request ->
        post_generate_test L W body log
        = (inr {| http_status := 500; http_body := DetailBody detail |},
           log)).
Proof.
  intros Hmissing detail.
  assert (Hrun : generate_diagnostic_test L W request log
                 = (inl (HTTPException 500 detail), log)).
  { unfold generate_diagnostic_test, try_except.
    now rewrite (generate_body_missing L W request log Hmissing). }
  split; [now apply get_openai_client_missing|].
  split; [exact Hrun|]. split.
  - intros m Heq. symmetry in Heq. revert Heq.
    apply parse_detail_not_generic.
  - intros body Hbody. unfold post_generate_test.
    now rewrite Hbody, Hrun.
Qed.

(** C6, which the code does not keep.  With the credential variable
    absent or empty, [get_openai_client] raises
    [HTTPException(500, "OpenAI API key not configured")] before anything
    is sent, and the log of outbound calls stays as it was.  But the call
    stands inside the [try] statement, so the catch-all clause takes that
    exception and the handler raises another: its detail is the generic
    prefix followed by [str(e)], not the message of line 19, and it is
    the very detail the handler raises when a configured service [W']
    fails with an exception of that text.  The failure is not distinct
    from the other failure classes. *)
Theorem missing_credential_is_swallowed_by_the_catch_all (W' : World)
    (request : DiagnosticTestRequest) (log : list CompletionCall)
    (key : pystr) :
  bool_of_str (os_getenv W OPENAI_API_KEY) = false ->
  os_getenv W' OPENAI_API_KEY = Some key -> key <> [] ->
  chat_completions_create W'
    (completion_call {| api_key := key |} (build_prompt request))
  = inl (ClientError (str_HTTPException L 500 not_configured)) ->
  let detail :=
    generic_prefix ++ str_HTTPException L 500 not_configured in
  get_openai_client W log = (inl (HTTPException 500 not_configured), log)
  /\ generate_diagnostic_test L W request log
     = (inl (HTTPException 500 detail), log)
  /\ detail <> not_configured
  /\ fst (generate_diagnostic_test L W' request log)
     = inl (HTTPException 500 detail).
Proof.
  intros Hmissing Hkey Hk Hcall detail.
  split; [now apply get_openai_client_missing|]. split; [|split].
  - unfold generate_diagnostic_test, try_except.
    now rewrite (generate_body_missing L W request log Hmissing).
  - discriminate.
  - unfold generate_diagnostic_test, try_except.
    rewrite (generate_body_present L W' request log Hkey Hk). cbv zeta.
    now rewrite Hcall.
Qed.

(** C7, as amended.  When the questions array decoded from the model
    output contains an element that is not an object, that lacks one of
    the five fields, that holds in a field a value the validator of the
    declared type refuses, whose [options] is not a list, or one of whose
    options is malformed in the same way, response assembly fails: the
    handler raises status 500 with the generic prefix followed by the
    text of the validation error, which no parse-failure detail equals,
    and returns no test.  The number of options plays no part. *)
Theorem malformed_question_fails_assembly (request : DiagnosticTestRequest)
    (log : list CompletionCall) (key : pystr) (response : ChatCompletion)
    (raw : pystr) (rest : list (Datatypes.option pystr))
    (d : list (pystr * json)) (items : list json) (q : json) :
  os_getenv W OPENAI_API_KEY = Some key -> key <> [] ->
  chat_completions_create W
    (completion_call {| api_key := key |} (build_prompt request))
  = inr response ->
  choices response = Some raw :: rest ->
  json_loads L (clean_content raw) = inr (JDict d) ->
  dict_get (lit "questions") d = Some (JList items) ->
  In q items ->
  malformed_question L q ->
  let detail := generic_prefix ++ str_ValidationError L (JList items) in
  generate_diagnostic_test L W request log
  = (inl (HTTPException 500 detail),
     log ++ [completion_call {| api_key := key |} (build_prompt request)])
  /\ (forall m, detail <> parse_prefix ++ m).
Proof.
  intros Hkey Hk Hcall Hchoices Hloads Hget Hin Hbad detail.
  split.
  - unfold generate_diagnostic_test, try_except.
    rewrite (generate_body_present L W request log Hkey Hk). cbv zeta.
    rewrite Hcall.
    unfold interpret, first_choice. rewrite Hchoices.
    unfold message_content, loads. rewrite Hloads.
    unfold getitem_questions. rewrite Hget.
    unfold new_DiagnosticTestResponse, validate_questions.
    rewrite (all_or_none_refused _ _ _ Hin
               (malformed_question_refused Hbad)).
    reflexivity.
  - intros m Heq. symmetry in Heq. revert Heq.
    apply parse_detail_not_generic.
Qed.

(** C8, as amended.  In every successfully returned test, the questions
    are those of the array decoded from the model output, that is from
    the text of the first choice the service answered the handler's call
    with, one for one and in order.  Each has for [options] the validated
    options of the model's question, as many and in the same order, and
    for its number, text, answer and explanation the validated values of
    the model's question.  Nothing is required of the number of options,
    of their letters or of the answer. *)
Theorem returned_questions_are_the_decoded_ones
    (request : DiagnosticTestRequest) (log log' : list CompletionCall)
    (test : DiagnosticTestResponse) :
  generate_diagnostic_test L W request log = (inr test, log') ->
  exists key raw d items,
    answers_with W request key raw
    /\ json_loads L (clean_content raw) = inr (JDict d)
    /\ dict_get (lit "questions") d = Some (JList items)
    /\ Forall2 (question_of L) (questions test) items.
Proof.
  intros H.
  apply generate_success_inv in H
    as (key & response & raw & rest & d & items & qs
        & Hkey & Hk & Hcall & Hc & Hv & Hq & Hqs & -> & _).
  exists key, raw, d, items.
  split; [|split; [exact Hv | split; [exact Hq|]]].
  - split; [exact Hkey|]. split; [exact Hk|].
    exists rest. rewrite Hcall. destruct response as [cs].
    simpl in Hc. now rewrite Hc.
  - simpl. apply all_or_none_Forall2 in Hqs.
    eapply Forall2_impl; [|exact Hqs].
    intros a b. apply validate_MCQQuestion_inv.
Qed.

(** C9.  [GET /health] returns [status] "healthy" and an
    [openai_configured] that is false exactly when the credential variable
    is absent or empty and true otherwise; the log of outbound calls is
    unchanged. *)
Theorem health_reports_the_credential (log : list CompletionCall) :
  let key := os_getenv W OPENAI_API_KEY in
  health_check W log
  = (inr {| status := lit "healthy";
            openai_configured := bool_of_str key |}, log)
  /\ (bool_of_str key = false <-> key = None \/ key = Some [])
  /\ (bool_of_str key = true <-> exists k, key = Some k /\ k <> []).
Proof.
  intros key. split; [reflexivity|]. split.
  - apply bool_of_str_false.
  - apply bool_of_str_true.
Qed.

End Claims.

(** ** The claims at concrete completions *)

(** Five questions asked for and none returned: the count is still 5. *)
Lemma total_questions_echoes_request_witness :
  generate_diagnostic_test library (served questions_empty)
    (statistics_request 5) []
  = (inr no_questions_test, [statistics_call 5])
  /\ total_questions no_questions_test = 5%Z
  /\ List.length (questions no_questions_test) = 0.
Proof.
  assert (Hrun : generate_diagnostic_test library (served questions_empty)
                   (statistics_request 5) []
                 = (inr no_questions_test, [statistics_call 5]))
    by (vm_compute; reflexivity).
  split; [exact Hrun|]. split; [|reflexivity].
  refine (proj1 (@total_questions_echoes_request library
                   (served questions_empty) (statistics_request 5) 5
                   [] _ _ eq_refl _ Hrun)).
  lia.
Defined.

(** The counts 0 and 51. *)
Lemma out_of_range_rejected_before_any_call_witness :
  post_generate_test library (served questions_empty) (statistics_body 0) []
  = (inr {| http_status := 422;
            http_body := ValidationBody (statistics_body 0) |}, [])
  /\ post_generate_test library (served questions_empty)
       (statistics_body 51) []
     = (inr {| http_status := 422;
               http_body := ValidationBody (statistics_body 51) |}, []).
Proof.
  split.
  - apply (@out_of_range_rejected_before_any_call library
             (served questions_empty) _ (JInt 0) 0%Z []);
      [reflexivity | reflexivity | lia].
  - apply (@out_of_range_rejected_before_any_call library
             (served questions_empty) _ (JInt 51) 51%Z []);
      [reflexivity | reflexivity | lia].
Defined.

(** The refusal of testable property 5. *)
Lemma decode_failure_is_reported_by_class_witness :
  generate_diagnostic_test library (served refusal) (statistics_request 5) []
  = (inl (HTTPException 500
            (lit "Failed to parse GPT response: " ++ refusal_message)),
     [statistics_call 5]).
Proof.
  refine (proj1 (@decode_failure_is_reported_by_class library
                   (served refusal) (statistics_request 5) [] sk_test
                   {| choices := [Some refusal] |} refusal []
                   (JSONDecodeError refusal_message)
                   eq_refl _ eq_refl eq_refl _)).
  - discriminate.
  - vm_compute; reflexivity.
Defined.

(** C3 as stated fails: [completion_long_integer] is not a JSON document
    (with a short integer in its place the same text is a decoding
    error), [json.loads] raises a [ValueError] on it, and the handler
    answers under the generic prefix, which no parse-failure detail
    has. *)
Lemma long_integer_is_not_a_parse_failure :
  json_loads library (lit "[1")
  = inl (JSONDecodeError
           (lit "Expecting ',' delimiter: line 1 column 3 (char 2)"))
  /\ json_loads library (clean_content completion_long_integer)
     = inl long_integer_error
  /\ generate_diagnostic_test library (served completion_long_integer)
       (statistics_request 5) []
     = (inl (HTTPException 500
               (lit "Error generating test: "
                ++ str_exn library long_integer_error)),
        [statistics_call 5])
  /\ (forall m,
        lit "Error generating test: " ++ str_exn library long_integer_error
        <> lit "Failed to parse GPT response: " ++ m).
Proof.
  split; [vm_compute; reflexivity|].
  split; [vm_compute; reflexivity|].
  split; [vm_compute; reflexivity|].
  intros m. discriminate.
Qed.

(** The variable absent, against a service that fails with the text of
    the credential exception. *)
Lemma missing_credential_is_swallowed_by_the_catch_all_witness :
  generate_diagnostic_test library (stub_world None questions_empty)
    (statistics_request 5) []
  = (inl (HTTPException 500
            (lit "Error generating test: 500: OpenAI API key not configured")),
     [])
  /\ fst (generate_diagnostic_test library
            (failing_world (Some sk_test) credential_text_error)
            (statistics_request 5) [])
     = inl (HTTPException 500
              (lit "Error generating test: 500: OpenAI API key not configured")).
Proof.
  assert (Hk : sk_test <> []) by discriminate.
  destruct (@missing_credential_is_swallowed_by_the_catch_all library
              (stub_world None questions_empty)
              (failing_world (Some sk_test) credential_text_error)
              (statistics_request 5) [] sk_test eq_refl eq_refl Hk eq_refl)
    as (_ & Hrun & _ & Hsame).
  split; [exact Hrun | exact Hsame].
Defined.

(** C7 as stated fails: the array decoded from [completion_three_options]
    holds a question with three options, and the test is returned. *)
Lemma wrong_option_count_accepted :
  json_loads library (clean_content completion_three_options)
  = inr (JDict [(lit "questions", JList [three_options_json])])
  /\ (exists os,
        dict_get (lit "options")
          match three_options_json with JDict d => d | _ => [] end
        = Some (JList os)
        /\ List.length os = 3)
  /\ generate_diagnostic_test library (served completion_three_options)
       (statistics_request 1) []
     = (inr three_options_test, [statistics_call 1])
  /\ map (fun q => List.length (options q)) (questions three_options_test)
     = [3].
Proof.
  split; [vm_compute; reflexivity|].
  split; [eexists; split; reflexivity|].
  split; [vm_compute; reflexivity | reflexivity].
Qed.

(** A question without its explanation. *)
Lemma malformed_question_fails_assembly_witness :
  generate_diagnostic_test library (served completion_missing_field)
    (statistics_request 1) []
  = (inl (HTTPException 500
            (lit "Error generating test: "
             ++ str_ValidationError library (JList [missing_field_json]))),
     [statistics_call 1]).
Proof.
  refine (proj1 (@malformed_question_fails_assembly library
                   (served completion_missing_field) (statistics_request 1) []
                   sk_test {| choices := [Some completion_missing_field] |}
                   completion_missing_field []
                   [(lit "questions", JList [missing_field_json])]
                   [missing_field_json] missing_field_json
                   eq_refl _ eq_refl eq_refl _ eq_refl _ _)).
  - discriminate.
  - vm_compute; reflexivity.
  - now left.
  - apply question_field_missing with (name := "explanation"%string).
    + simpl. tauto.
    + reflexivity.
Defined.

(** C8 as stated fails: a test is returned whose only question has two
    options, both lettered A, and the answer Z. *)
Lemma inconsistent_question_returned :
  generate_diagnostic_test library (served completion_inconsistent)
    (statistics_request 1) []
  = (inr inconsistent_test, [statistics_call 1])
  /\ map (fun q => (map option_ (options q), correct_answer q))
       (questions inconsistent_test)
     = [([lit "A"; lit "A"], lit "Z")].
Proof.
  split; [vm_compute; reflexivity | reflexivity].
Qed.

(** One well-formed question, fenced: the questions returned are those
    of the text the stubbed service answered with. *)
Lemma returned_questions_are_the_decoded_ones_witness :
  exists d items,
    json_loads library (clean_content completion_one_question)
    = inr (JDict d)
    /\ dict_get (lit "questions") d = Some (JList items)
    /\ Forall2 (question_of library) (questions one_question_test) items.
Proof.
  destruct (@returned_questions_are_the_decoded_ones library
              (served completion_one_question) (statistics_request 1)
              [] [statistics_call 1] one_question_test)
    as (key & raw & d & items & Hans & Hv & Hq & Hqs);
    [vm_compute; reflexivity|].
  destruct Hans as (_ & _ & rest & Hcall).
  injection Hcall as Hraw _. subst raw.
  now exists d, items.
Defined.

(** * Further properties *)

(** ** What the cleaner keeps *)

Section CleanerKeeps.

Lemma part_of_refl (s : pystr) : part_of s s.
Proof. exists [], []. now rewrite app_nil_r. Qed.

Lemma part_of_trans (r s t : pystr) :
  part_of r s -> part_of s t -> part_of r t.
Proof.
  intros (a & b & ->) (c & d & ->).
  exists (c ++ a), (b ++ d). now rewrite <- !app_assoc.
Qed.

Lemma part_of_length (t s : pystr) :
  part_of t s -> List.length t <= List.length s.
Proof. intros (a & b & ->). rewrite !length_app. lia. Qed.

Lemma lstrip_part_of (s : pystr) : part_of (lstrip s) s.
Proof.
  induction s as [|c s IH]; simpl; [apply part_of_refl|].
  destruct (isspace c); [|apply part_of_refl].
  destruct IH as (a & b & H). exists (c :: a), b. simpl. now f_equal.
Qed.

Lemma rstrip_part_of (s : pystr) : part_of (rstrip s) s.
Proof.
  unfold rstrip. destruct (lstrip_part_of (rev s)) as (a & b & H).
  exists (rev b), (rev a).
  assert (E : s = rev (a ++ lstrip (rev s) ++ b))
    by (rewrite <- H; symmetry; apply rev_involutive).
  rewrite !rev_app_distr, <- app_assoc in E. exact E.
Qed.

Lemma strip_part_of (s : pystr) : part_of (strip s) s.
Proof.
  unfold strip. eapply part_of_trans;
    [apply rstrip_part_of | apply lstrip_part_of].
Qed.

Lemma slice_from_part_of (n : nat) (s : pystr) : part_of (slice_from n s) s.
Proof.
  exists (firstn n s), []. rewrite app_nil_r.
  symmetry. apply firstn_skipn.
Qed.

Lemma slice_to_minus_part_of (n : nat) (s : pystr) :
  part_of (slice_to_minus n s) s.
Proof.
  exists [], (skipn (List.length s - n) s). simpl.
  symmetry. apply firstn_skipn.
Qed.

(** The first character of a stripped text is not a space. *)
Lemma strip_head (s : pystr) (c : codepoint) (t : pystr) :
  strip s = c :: t -> isspace c = false.
Proof.
  unfold strip.
  destruct (lstrip_shape s) as [-> | (c' & t' & -> & Hc)];
    [discriminate|].
  rewrite rstrip_cons_not_space by assumption.
  intros H. now inversion H; subst.
Qed.

(** Neither is its last. *)
Lemma strip_last (s t : pystr) (d : codepoint) :
  strip s = t ++ [d] -> isspace d = false.
Proof.
  unfold strip, rstrip.
  destruct (lstrip_shape (rev (lstrip s))) as [-> | (c' & t' & -> & Hc)].
  - simpl. intros H. now destruct t.
  - simpl. intros H. apply app_inj_tail in H as [_ <-]. exact Hc.
Qed.

Lemma strip_blank (s : pystr) :
  forallb isspace s = true -> strip s = [].
Proof.
  intros H. unfold strip.
  rewrite <- (app_nil_r s), lstrip_spaces by assumption. reflexivity.
Qed.

End CleanerKeeps.

(** X1.  The cleaner only removes text: what it returns is a contiguous
    part of the completion, and so never longer than it. *)
Theorem clean_content_part_of_completion (raw : pystr) :
  part_of (clean_content raw) raw
  /\ List.length (clean_content raw) <= List.length raw.
Proof.
  assert (H : part_of (clean_content raw) raw).
  { rewrite clean_content_unfold. cbv zeta.
    eapply part_of_trans; [apply strip_part_of|].
    eapply part_of_trans;
      [|eapply part_of_trans;
         [|eapply part_of_trans; [|apply strip_part_of]]].
    - destruct (endswith _ fence);
        [apply slice_to_minus_part_of | apply part_of_refl].
    - destruct (startswith _ fence);
        [apply slice_from_part_of | apply part_of_refl].
    - destruct (startswith _ fence_json);
        [apply slice_from_part_of | apply part_of_refl]. }
  split; [exact H | now apply part_of_length].
Qed.

(** X2.  What the cleaner hands to the decoder never starts or ends with
    whitespace. *)
Theorem clean_content_has_no_outer_whitespace (raw : pystr) :
  (forall c t, clean_content raw = c :: t -> isspace c = false)
  /\ (forall t d, clean_content raw = t ++ [d] -> isspace d = false).
Proof.
  rewrite clean_content_unfold. cbv zeta. split.
  - intros c t. apply strip_head.
  - intros t d. apply strip_last.
Qed.

(** X3.  Whitespace before and after the completion has no effect on the
    cleaned text. *)
Theorem clean_content_ignores_outer_whitespace (before raw after : pystr) :
  forallb isspace before = true ->
  forallb isspace after = true ->
  clean_content (before ++ raw ++ after) = clean_content raw.
Proof.
  intros Hb Ha. rewrite !clean_content_unfold. cbv zeta.
  now rewrite (strip_surrounded before raw after Hb Ha).
Qed.

Lemma clean_content_ignores_outer_whitespace_witness :
  clean_content (lit "  " ++ LF ++ fenced_questions_empty_compact
                 ++ LF ++ lit " ")
  = questions_empty_compact.
Proof.
  change (lit "  " ++ LF ++ fenced_questions_empty_compact ++ LF ++ lit " ")
    with ((lit "  " ++ LF) ++ fenced_questions_empty_compact
          ++ (LF ++ lit " ")).
  rewrite (@clean_content_ignores_outer_whitespace (lit "  " ++ LF)
             fenced_questions_empty_compact (LF ++ lit " ")
             eq_refl eq_refl).
  reflexivity.
Defined.

(** X4.  A completion that is empty or made of whitespace only cleans to
    the empty string, which is what the decoder is then given. *)
Theorem clean_content_of_blank (raw : pystr) :
  forallb isspace raw = true -> clean_content raw = [].
Proof.
  intros H. rewrite clean_content_unfold. cbv zeta.
  now rewrite (strip_blank raw H).
Qed.

Lemma clean_content_of_blank_witness :
  clean_content [] = [] /\ clean_content (lit " " ++ LF ++ lit "  ") = [].
Proof.
  split.
  - exact (@clean_content_of_blank [] eq_refl).
  - exact (@clean_content_of_blank (lit " " ++ LF ++ lit "  ") eq_refl).
Defined.

(** ** The handler on every path *)

Section HandlerPaths.

Variable L : Library.
Variable W : World.

#[local] Arguments clean_content : simpl never.
#[local] Arguments build_prompt : simpl never.
#[local] Arguments completion_call : simpl never.

(** What the [except] clauses raise for [e]. *)
Lemma handle_run (e : exn) (log : list CompletionCall) :
  handle L e log
  = (inl (HTTPException 500 (detail_prefix e ++ str_exn L e)), log).
Proof. destruct e; reflexivity. Qed.

(** With a credential, the handler in one expression. *)
Lemma generate_run_present (request : DiagnosticTestRequest) (key : pystr)
    (log : list CompletionCall) :
  os_getenv W OPENAI_API_KEY = Some key -> key <> [] ->
  generate_diagnostic_test L W request log
  = (match
       match chat_completions_create W
               (completion_call {| api_key := key |} (build_prompt request))
       with
       | inl e => inl e
       | inr response => interpret L request response
       end
     with
     | inr test => inr test
     | inl e => inl (HTTPException 500 (detail_prefix e ++ str_exn L e))
     end,
     log ++ [completion_call {| api_key := key |} (build_prompt request)]).
Proof.
  intros Hkey Hk. unfold generate_diagnostic_test, try_except.
  rewrite (generate_body_present L W request log Hkey Hk). cbv zeta.
  destruct (chat_completions_create W _) as [e|response].
  - apply handle_run.
  - destruct (interpret L request response) as [e|test];
      [apply handle_run | reflexivity].
Qed.

(** With an answer that has a text, the handler is what becomes of the
    text. *)
Lemma generate_run_answered (request : DiagnosticTestRequest)
    (key raw : pystr) (log : list CompletionCall) :
  answers_with W request key raw ->
  generate_diagnostic_test L W request log
  = (match
       match loads L (clean_content raw) with
       | inl e => inl e
       | inr test_data =>
           match getitem_questions L test_data with
           | inl e => inl e
           | inr questions =>
               new_DiagnosticTestResponse L
                 (req_course_name request) (req_subject request)
                 (req_target_grade_level request) (number_of_mcq request)
                 questions
           end
       end
     with
     | inr test => inr test
     | inl e => inl (HTTPException 500 (detail_prefix e ++ str_exn L e))
     end,
     log ++ [completion_call {| api_key := key |} (build_prompt request)]).
Proof.
  intros (Hkey & Hk & rest & Hcall).
  rewrite (generate_run_present request log Hkey Hk), Hcall.
  reflexivity.
Qed.

(** X5.  With a credential in the environment, every run of the handler
    makes exactly one call to the completion service, whether the run
    succeeds or fails and whatever the service answers: the call carries
    that credential, the model [gpt-4o-mini], the system message followed
    by the prompt of the request, and 4000 as [max_tokens]. *)
Theorem one_call_per_run_with_credential (request : DiagnosticTestRequest)
    (key : pystr) (log : list CompletionCall) :
  os_getenv W OPENAI_API_KEY = Some key -> key <> [] ->
  snd (generate_diagnostic_test L W request log)
  = log ++ [ {| call_api_key := key;
                model := lit "gpt-4o-mini";
                messages :=
                  [ {| role := lit "system"; content := system_message |};
                    {| role := lit "user";
                       content := build_prompt request |} ];
                temperature := (7 # 10)%Q;
                max_tokens := 4000 |} ].
Proof.
  intros Hkey Hk. now rewrite (generate_run_present request log Hkey Hk).
Qed.

(** X6.  When the call to the completion service raises, the handler
    raises status 500 after that one call.  The detail is the generic
    prefix followed by the text of the exception, except for a
    [JSONDecodeError] raised by the client, which is reported under the
    parse-failure prefix although no model output was decoded. *)
Theorem upstream_failure_is_surfaced (request : DiagnosticTestRequest)
    (key : pystr) (log : list CompletionCall) (e : exn) :
  os_getenv W OPENAI_API_KEY = Some key -> key <> [] ->
  chat_completions_create W
    (completion_call {| api_key := key |} (build_prompt request))
  = inl e ->
  generate_diagnostic_test L W request log
  = (inl (HTTPException 500 (detail_prefix e ++ str_exn L e)),
     log ++ [completion_call {| api_key := key |} (build_prompt request)])
  /\ (forall m, e = JSONDecodeError m ->
        detail_prefix e ++ str_exn L e = parse_prefix ++ m)
  /\ ((forall m, e <> JSONDecodeError m) ->
        detail_prefix e = generic_prefix).
Proof.
  intros Hkey Hk Hcall. split; [|split].
  - now rewrite (generate_run_present request log Hkey Hk), Hcall.
  - now intros m ->.
  - intros He. destruct e; try reflexivity. now contradiction (He msg).
Qed.

(** X7.  An answer without any choice fails the run with status 500 and
    the generic prefix followed by the text of the [IndexError]. *)
Theorem no_choice_is_a_generic_failure (request : DiagnosticTestRequest)
    (key : pystr) (log : list CompletionCall) :
  os_getenv W OPENAI_API_KEY = Some key -> key <> [] ->
  chat_completions_create W
    (completion_call {| api_key := key |} (build_prompt request))
  = inr {| choices := [] |} ->
  generate_diagnostic_test L W request log
  = (inl (HTTPException 500
            (generic_prefix ++ lit "list index out of range")),
     log ++ [completion_call {| api_key := key |} (build_prompt request)]).
Proof.
  intros Hkey Hk Hcall.
  now rewrite (generate_run_present request log Hkey Hk), Hcall.
Qed.

(** X8.  An answer whose first choice has no content ([None]) fails the
    run with status 500 and the generic prefix followed by the text of
    the [AttributeError] of [None.strip]. *)
Theorem no_content_is_a_generic_failure (request : DiagnosticTestRequest)
    (key : pystr) (log : list CompletionCall)
    (rest : list (Datatypes.option pystr)) :
  os_getenv W OPENAI_API_KEY = Some key -> key <> [] ->
  chat_completions_create W
    (completion_call {| api_key := key |} (build_prompt request))
  = inr {| choices := None :: rest |} ->
  generate_diagnostic_test L W request log
  = (inl (HTTPException 500
            (generic_prefix
             ++ lit "'NoneType' object has no attribute 'strip'")),
     log ++ [completion_call {| api_key := key |} (build_prompt request)]).
Proof.
  intros Hkey Hk Hcall.
  now rewrite (generate_run_present request log Hkey Hk), Hcall.
Qed.

(** X9.  Model output that decodes to an object without the key
    [questions] fails the run with status 500 and the detail
    [Error generating test: 'questions'], the text of the [KeyError]. *)
Theorem missing_questions_key_is_a_generic_failure
    (request : DiagnosticTestRequest) (key raw : pystr)
    (log : list CompletionCall) (d : list (pystr * json)) :
  answers_with W request key raw ->
  json_loads L (clean_content raw) = inr (JDict d) ->
  dict_get (lit "questions") d = None ->
  generate_diagnostic_test L W request log
  = (inl (HTTPException 500 (generic_prefix ++ lit "'questions'")),
     log ++ [completion_call {| api_key := key |} (build_prompt request)]).
Proof.
  intros Hans Hloads Hget.
  rewrite (generate_run_answered log Hans).
  unfold loads. rewrite Hloads. unfold getitem_questions. now rewrite Hget.
Qed.

(** X10.  Model output that decodes to anything but an object (an array,
    a string, a number, a boolean, [null]) fails the run with status 500
    and the generic prefix followed by the text of the [TypeError] of the
    subscript. *)
Theorem top_level_not_an_object_is_a_generic_failure
    (request : DiagnosticTestRequest) (key raw : pystr)
    (log : list CompletionCall) (v : json) :
  answers_with W request key raw ->
  json_loads L (clean_content raw) = inr v ->
  (forall d, v <> JDict d) ->
  generate_diagnostic_test L W request log
  = (inl (HTTPException 500
            (generic_prefix ++ str_subscript_TypeError L v)),
     log ++ [completion_call {| api_key := key |} (build_prompt request)]).
Proof.
  intros Hans Hloads Hv.
  rewrite (generate_run_answered log Hans).
  unfold loads. rewrite Hloads.
  destruct v; try reflexivity. now contradiction (Hv pairs).
Qed.

(** X11.  Model output whose [questions] is not an array fails the run
    with status 500 and the generic prefix followed by the text of the
    validation error. *)
Theorem questions_not_a_list_is_a_generic_failure
    (request : DiagnosticTestRequest) (key raw : pystr)
    (log : list CompletionCall) (d : list (pystr * json)) (q : json) :
  answers_with W request key raw ->
  json_loads L (clean_content raw) = inr (JDict d) ->
  dict_get (lit "questions") d = Some q ->
  (forall items, q <> JList items) ->
  generate_diagnostic_test L W request log
  = (inl (HTTPException 500 (generic_prefix ++ str_ValidationError L q)),
     log ++ [completion_call {| api_key := key |} (build_prompt request)]).
Proof.
  intros Hans Hloads Hget Hq.
  rewrite (generate_run_answered log Hans).
  unfold loads. rewrite Hloads. unfold getitem_questions. rewrite Hget.
  unfold new_DiagnosticTestResponse, validate_questions.
  destruct q; try reflexivity. now contradiction (Hq items).
Qed.

(** X12.  The handler returns a test exactly when there is a credential,
    the service answers with a first choice that has a text, the cleaned
    text decodes to an object, its [questions] is an array, and every
    element of the array validates as a question.  The test then echoes
    the three texts and the count of the request and carries the
    validated questions, and one call has been made. *)
Theorem success_exactly_when (request : DiagnosticTestRequest)
    (log log' : list CompletionCall) (test : DiagnosticTestResponse) :
  generate_diagnostic_test L W request log = (inr test, log')
  <->
  exists key raw d items qs,
    answers_with W request key raw
    /\ json_loads L (clean_content raw) = inr (JDict d)
    /\ dict_get (lit "questions") d = Some (JList items)
    /\ all_or_none (validate_MCQQuestion L) items = Some qs
    /\ test = {| course_name := req_course_name request;
                 subject := req_subject request;
                 target_grade_level := req_target_grade_level request;
                 total_questions := number_of_mcq request;
                 questions := qs |}
    /\ log' = log ++ [completion_call {| api_key := key |}
                        (build_prompt request)].
Proof.
  split.
  - intros H.
    apply generate_success_inv in H
      as (key & response & raw & rest & d & items & qs
          & Hkey & Hk & Hcall & Hc & Hv & Hq & Hqs & Ht & Hlog).
    exists key, raw, d, items, qs. repeat split; auto.
    exists rest. rewrite Hcall. destruct response as [cs].
    simpl in Hc. now rewrite Hc.
  - intros (key & raw & d & items & qs & Hans & Hv & Hq & Hqs & -> & ->).
    rewrite (generate_run_answered log Hans).
    unfold loads. rewrite Hv. unfold getitem_questions. rewrite Hq.
    unfold new_DiagnosticTestResponse, validate_questions.
    now rewrite Hqs.
Qed.

End HandlerPaths.

(** The stubbed service answers with the text it was given. *)
Lemma served_answers (completion : pystr) (request : DiagnosticTestRequest) :
  answers_with (served completion) request sk_test completion.
Proof.
  split; [reflexivity|]. split; [discriminate|]. now exists [].
Qed.

Lemma one_call_per_run_with_credential_witness :
  snd (generate_diagnostic_test library (served refusal)
         (statistics_request 5) [])
  = [statistics_call 5]
  /\ snd (generate_diagnostic_test library (served questions_empty)
            (statistics_request 5) [])
     = [statistics_call 5].
Proof.
  assert (Hk : sk_test <> []) by discriminate.
  split.
  - exact (@one_call_per_run_with_credential library (served refusal)
             (statistics_request 5) sk_test [] eq_refl Hk).
  - exact (@one_call_per_run_with_credential library (served questions_empty)
             (statistics_request 5) sk_test [] eq_refl Hk).
Defined.

Lemma upstream_failure_is_surfaced_witness :
  generate_diagnostic_test library
    (failing_world (Some sk_test) connection_error) (statistics_request 5) []
  = (inl (HTTPException 500 (lit "Error generating test: Connection error.")),
     [statistics_call 5])
  /\ generate_diagnostic_test library
       (failing_world (Some sk_test) upstream_decode_error)
       (statistics_request 5) []
     = (inl (HTTPException 500
               (lit "Failed to parse GPT response: Expecting value: line 1 column 1 (char 0)")),
        [statistics_call 5]).
Proof.
  assert (Hk : sk_test <> []) by discriminate.
  split.
  - exact (proj1 (@upstream_failure_is_surfaced library
             (failing_world (Some sk_test) connection_error)
             (statistics_request 5) sk_test [] connection_error
             eq_refl Hk eq_refl)).
  - exact (proj1 (@upstream_failure_is_surfaced library
             (failing_world (Some sk_test) upstream_decode_error)
             (statistics_request 5) sk_test [] upstream_decode_error
             eq_refl Hk eq_refl)).
Defined.

Lemma no_choice_is_a_generic_failure_witness :
  generate_diagnostic_test library (answering {| choices := [] |})
    (statistics_request 5) []
  = (inl (HTTPException 500
            (lit "Error generating test: list index out of range")),
     [statistics_call 5]).
Proof.
  assert (Hk : sk_test <> []) by discriminate.
  exact (@no_choice_is_a_generic_failure library
           (answering {| choices := [] |}) (statistics_request 5) sk_test []
           eq_refl Hk eq_refl).
Defined.

Lemma no_content_is_a_generic_failure_witness :
  generate_diagnostic_test library (answering {| choices := [None] |})
    (statistics_request 5) []
  = (inl (HTTPException 500
            (lit "Error generating test: 'NoneType' object has no attribute 'strip'")),
     [statistics_call 5]).
Proof.
  assert (Hk : sk_test <> []) by discriminate.
  exact (@no_content_is_a_generic_failure library
           (answering {| choices := [None] |}) (statistics_request 5)
           sk_test [] [] eq_refl Hk eq_refl).
Defined.

Lemma missing_questions_key_is_a_generic_failure_witness :
  generate_diagnostic_test library (served completion_empty_object)
    (statistics_request 5) []
  = (inl (HTTPException 500 (lit "Error generating test: 'questions'")),
     [statistics_call 5]).
Proof.
  refine (@missing_questions_key_is_a_generic_failure library
            (served completion_empty_object) (statistics_request 5)
            sk_test completion_empty_object [] []
            (served_answers _ _) _ eq_refl).
  vm_compute; reflexivity.
Defined.

Lemma top_level_not_an_object_is_a_generic_failure_witness :
  generate_diagnostic_test library (served completion_array)
    (statistics_request 5) []
  = (inl (HTTPException 500
            (lit "Error generating test: list indices must be integers or slices, not str")),
     [statistics_call 5]).
Proof.
  refine (@top_level_not_an_object_is_a_generic_failure library
            (served completion_array) (statistics_request 5)
            sk_test completion_array [] (JList [])
            (served_answers _ _) _ _).
  - vm_compute; reflexivity.
  - discriminate.
Defined.

Lemma questions_not_a_list_is_a_generic_failure_witness :
  generate_diagnostic_test library (served completion_questions_object)
    (statistics_request 5) []
  = (inl (HTTPException 500
            (lit "Error generating test: "
             ++ str_ValidationError library (JDict []))),
     [statistics_call 5]).
Proof.
  refine (@questions_not_a_list_is_a_generic_failure library
            (served completion_questions_object) (statistics_request 5)
            sk_test completion_questions_object []
            [(lit "questions", JDict [])] (JDict [])
            (served_answers _ _) _ eq_refl _).
  - vm_compute; reflexivity.
  - discriminate.
Defined.

(** ** The models and the boundary *)

Section Boundary.

Variable L : Library.
Variable W : World.

#[local] Arguments clean_content : simpl never.
#[local] Arguments build_prompt : simpl never.
#[local] Arguments completion_call : simpl never.

(** X13.  A question is validated on its five declared keys alone: two
    objects that agree on them validate alike, whatever else they hold. *)
Theorem undeclared_question_keys_are_ignored (d d' : list (pystr * json)) :
  (forall name, In name question_fields ->
     dict_get (lit name) d = dict_get (lit name) d') ->
  validate_MCQQuestion L (JDict d) = validate_MCQQuestion L (JDict d').
Proof.
  intros H. unfold validate_MCQQuestion, int_field, str_field, list_field.
  rewrite (H "question_number"%string), (H "question"%string),
    (H "options"%string), (H "correct_answer"%string),
    (H "explanation"%string);
    [reflexivity | | | | |]; simpl; tauto.
Qed.

(** After validation the endpoint runs the handler and renders what it
    returns: the log is the handler's. *)
Lemma post_generate_test_log (body : json)
    (request : DiagnosticTestRequest) (log : list CompletionCall) :
  validate_DiagnosticTestRequest L body = Some request ->
  snd (post_generate_test L W body log)
  = snd (generate_diagnostic_test L W request log).
Proof.
  intros Hbody. unfold post_generate_test. rewrite Hbody.
  destruct (generate_diagnostic_test L W request log) as [[e|test] log'].
  - now destruct e.
  - now destruct (response_encodable test).
Qed.


(** X15.  [POST /generate-test] makes no call, or exactly one: one is
    made only for a body the request model accepts, hence with a count
    between 1 and 50, and only with a credential in the environment,
    which the call carries together with the prompt of that request. *)
Theorem calls_only_for_a_valid_request (body : json)
    (log : list CompletionCall) :
  snd (post_generate_test L W body log) = log
  \/ exists request key,
       validate_DiagnosticTestRequest L body = Some request
       /\ (1 <= number_of_mcq request <= 50)%Z
       /\ os_getenv W OPENAI_API_KEY = Some key /\ key <> []
       /\ snd (post_generate_test L W body log)
          = log ++ [completion_call {| api_key := key |}
                      (build_prompt request)].
Proof.
  destruct (validate_DiagnosticTestRequest L body) as [request|] eqn:Hbody.
  - rewrite (post_generate_test_log body log Hbody).
    destruct (bool_of_str (os_getenv W OPENAI_API_KEY)) eqn:Hb.
    + right. apply bool_of_str_true in Hb as (key & Hkey & Hk).
      exists request, key. repeat split; auto.
      * now apply (validated_request_in_range L body).
      * now apply (validated_request_in_range L body).
      * now rewrite (generate_run_present L W request log Hkey Hk).
    + left. unfold generate_diagnostic_test, try_except.
      now rewrite (generate_body_missing L W request log Hb).
  - left. unfold post_generate_test. now rewrite Hbody.
Qed.


(** X16.  A body with the four fields, three strings and an integer
    between 1 and 50, both bounds included, is accepted as the request
    with those values; the strings may be empty. *)
Theorem typed_body_in_range_is_accepted (c s g : pystr) (n : Z) :
  exact_types_accepted L ->
  (1 <= n <= 50)%Z ->
  validate_DiagnosticTestRequest L (typed_body c s g n)
  = Some {| req_course_name := c; req_subject := s;
            req_target_grade_level := g; number_of_mcq := n |}.
Proof.
  intros [Hstr Hint] Hn.
  unfold validate_DiagnosticTestRequest, typed_body, str_field, int_field.
  cbn. rewrite !Hstr, Hint. cbn. unfold ge_le.
  assert (Hb : (1 <=? n)%Z && (n <=? 50)%Z = true)
    by (apply andb_true_iff; split; lia).
  now rewrite Hb.
Qed.

(** X17.  A body that is not an object, or an object without one of the
    four fields, is answered with 422 and no call is made. *)
Theorem incomplete_body_is_rejected_before_any_call (body : json)
    (log : list CompletionCall) :
  (forall d, body <> JDict d)
  \/ (exists d name,
        body = JDict d /\ In name request_fields
        /\ dict_get (lit name) d = None) ->
  post_generate_test L W body log
  = (inr {| http_status := 422; http_body := ValidationBody body |}, log).
Proof.
  intros H.
  assert (Hv : validate_DiagnosticTestRequest L body = None).
  { destruct H as [Hno | (d & name & -> & Hin & Hget)].
    - destruct body; try reflexivity. now contradiction (Hno pairs).
    - unfold validate_DiagnosticTestRequest, str_field, int_field.
      destruct Hin as [<- | [<- | [<- | [<- | []]]]];
        rewrite Hget; refuse. }
  unfold post_generate_test. now rewrite Hv.
Qed.

(** X18.  [GET /health] and the credential check of [/generate-test]
    agree: [openai_configured] is true exactly when [get_openai_client]
    returns a client, and false exactly when it raises its 500; neither
    makes a call. *)
Theorem health_agrees_with_the_client (log : list CompletionCall) :
  exists h,
    health_check W log = (inr h, log)
    /\ (openai_configured h = true
        <-> exists client, get_openai_client W log = (inr client, log))
    /\ (openai_configured h = false
        <-> get_openai_client W log
            = (inl (HTTPException 500 not_configured), log)).
Proof.
  eexists. split; [reflexivity|]. cbn [openai_configured].
  fold OPENAI_API_KEY.
  destruct (bool_of_str (os_getenv W OPENAI_API_KEY)) eqn:Hb.
  - pose proof Hb as Hb'.
    apply bool_of_str_true in Hb' as (key & Hkey & Hk).
    rewrite (get_openai_client_present W log Hkey Hk). split.
    + split; [intros _; now eexists | reflexivity].
    + split; discriminate.
  - rewrite (get_openai_client_missing W log Hb). split.
    + split; [discriminate | intros [client Hc]; discriminate Hc].
    + split; reflexivity.
Qed.

End Boundary.

(** X19.  The prompt does not determine the request: the three texts are
    interpolated as they are, so a line feed inside one of them can pass
    for the start of the next, and two different requests can be sent
    as the same prompt. *)
Theorem prompt_does_not_determine_the_request :
  exists r1 r2 : DiagnosticTestRequest,
    build_prompt r1 = build_prompt r2
    /\ req_course_name r1 <> req_course_name r2
    /\ req_subject r1 <> req_subject r2.
Proof.
  exists request_subject_in_name, request_subject_in_subject.
  split; [vm_compute; reflexivity|]. split; discriminate.
Qed.

Lemma undeclared_question_keys_are_ignored_witness :
  validate_MCQQuestion library (JDict one_question_pairs)
  = validate_MCQQuestion library (JDict one_question_pairs_extended)
  /\ exists q, validate_MCQQuestion library (JDict one_question_pairs_extended)
               = Some q.
Proof.
  split; [|eexists; vm_compute; reflexivity].
  apply undeclared_question_keys_are_ignored.
  intros name [<- | [<- | [<- | [<- | [<- | []]]]]]; reflexivity.
Defined.

Lemma typed_body_in_range_is_accepted_witness :
  validate_DiagnosticTestRequest library (typed_body [] [] [] 1)
  = Some {| req_course_name := []; req_subject := [];
            req_target_grade_level := []; number_of_mcq := 1 |}
  /\ validate_DiagnosticTestRequest library (statistics_body 50)
     = Some (statistics_request 50).
Proof.
  assert (Hlib : exact_types_accepted library)
    by (split; reflexivity).
  split.
  - apply (@typed_body_in_range_is_accepted library [] [] [] 1%Z Hlib). lia.
  - apply (@typed_body_in_range_is_accepted library
             (lit "Intro to Statistics") (lit "Statistics")
             (lit "undergraduate") 50%Z Hlib).
    lia.
Defined.

Lemma incomplete_body_is_rejected_before_any_call_witness :
  post_generate_test library (served questions_empty) body_without_subject []
  = (inr {| http_status := 422;
            http_body := ValidationBody body_without_subject |}, [])
  /\ post_generate_test library (served questions_empty) (JList []) []
     = (inr {| http_status := 422; http_body := ValidationBody (JList []) |},
        []).
Proof.
  split.
  - apply incomplete_body_is_rejected_before_any_call. right.
    eexists _, "subject"%string. split; [reflexivity|].
    split; [simpl; tauto | reflexivity].
  - apply incomplete_body_is_rejected_before_any_call. left. discriminate.
Defined.

(** ** Questions of the declared types *)

Section TypedQuestions.

Variable L : Library.
Hypothesis exact : exact_types_accepted L.

Lemma option_json_validates (o : MCQOption) :
  validate_MCQOption L (option_json o) = Some o.
Proof.
  destruct exact as [Hstr _]. destruct o as [a b].
  unfold validate_MCQOption, option_json, str_field. cbn.
  now rewrite !Hstr.
Qed.

Lemma all_or_none_map {A B} (f : A -> Datatypes.option B) (g : B -> A)
    (l : list B) :
  (forall b, f (g b) = Some b) -> all_or_none f (map g l) = Some l.
Proof.
  intros H. induction l as [|b l IH]; simpl; [reflexivity|].
  now rewrite H, IH.
Qed.

Lemma question_json_validates (q : MCQQuestion) :
  validate_MCQQuestion L (question_json q) = Some q.
Proof.
  destruct exact as [Hstr Hint]. destruct q as [n t os c e].
  unfold validate_MCQQuestion, question_json, int_field, str_field,
    list_field.
  cbn. rewrite Hint, !Hstr. cbn.
  now rewrite (all_or_none_map _ _ os option_json_validates).
Qed.

End TypedQuestions.

(** X20.  The response model checks types and nothing more.  When the
    model output decodes to an object whose [questions] lists questions
    given with their five fields of the declared types, the handler
    returns exactly those questions, in order: whatever their numbers,
    however many options each has, whatever the letters and the answer. *)
Theorem typed_questions_are_returned_as_given (L : Library) (W : World)
    (request : DiagnosticTestRequest) (key raw : pystr)
    (log : list CompletionCall) (d : list (pystr * json))
    (qs : list MCQQuestion) :
  exact_types_accepted L ->
  answers_with W request key raw ->
  json_loads L (clean_content raw) = inr (JDict d) ->
  dict_get (lit "questions") d = Some (JList (map question_json qs)) ->
  generate_diagnostic_test L W request log
  = (inr {| course_name := req_course_name request;
            subject := req_subject request;
            target_grade_level := req_target_grade_level request;
            total_questions := number_of_mcq request;
            questions := qs |},
     log ++ [completion_call {| api_key := key |} (build_prompt request)]).
Proof.
  intros Hexact Hans Hloads Hget.
  rewrite (generate_run_answered L log Hans).
  unfold loads. rewrite Hloads. unfold getitem_questions. rewrite Hget.
  unfold new_DiagnosticTestResponse, validate_questions.
  rewrite (all_or_none_map _ _ qs (question_json_validates Hexact)).
  reflexivity.
Qed.

(** The completion that spells out [degenerate_question]. *)
Lemma typed_questions_are_returned_as_given_witness :
  generate_diagnostic_test library
    (served (litq "{'questions': [{'question_number': -3, 'question': '', 'options': [], 'correct_answer': 'E', 'explanation': ''}]}"))
    (statistics_request 5) []
  = (inr {| course_name := lit "Intro to Statistics";
            subject := lit "Statistics";
            target_grade_level := lit "undergraduate";
            total_questions := 5;
            questions := [degenerate_question] |},
     [statistics_call 5]).
Proof.
  refine (@typed_questions_are_returned_as_given library _
            (statistics_request 5) sk_test _ []
            [(lit "questions", JList [question_json degenerate_question])]
            [degenerate_question] _ (served_answers _ _) _ eq_refl).
  - split; reflexivity.
  - vm_compute; reflexivity.
Defined.

